(** * Mock OMR Sheet: a shallow embedding of [script.js]

    The page script keeps its state in module variables ([totalQuestions],
    [answerKey], [startTime], ...) and in the document (the text fields, the
    radio buttons of every question row, the message areas).  Every handler
    of the script is rendered here as a function on a record [State] that
    holds both; [Date.now()] is an explicit argument [now].

    Data:
    - question numbers, counts and clock readings are [Z]: the integers the
      script handles are exact as long as they stay below 2^53;
    - marks are IEEE binary64 numbers ([float]), the numbers of JavaScript;
      the two marks fields of the form hold what [parseFloat] reads;
    - text is [string]; the built-ins [trim], [toUpperCase], [parseInt] and
      the classes of the regular expression are given on ASCII text;
    - JavaScript objects used as maps ([answerKey], the rows of the sheet by
      their [id]) are [gmap Z _];
    - a handler that stops on an exception yields [None].

    Left out: styling, scrolling, the labels of the buttons, the format
    dialog, the breakdown of marks gained and lost, and the PDF report,
    which reads the state and changes none of it. *)

From Stdlib Require Import ZArith String Ascii List Lia Bool.
From Stdlib Require Import DecimalString DecimalPos.
From Stdlib Require Import PrimFloat Uint63.
From Stdlib Require FloatAxioms SpecFloat.
From stdpp Require Import base option list gmap strings.

Open Scope string_scope.
Open Scope Z_scope.

(** ** Built-ins of the language *)

Module JS.

(** The code unit of a character. *)
Definition code (c : ascii) : Z := Z.of_N (N_of_ascii c).

Definition inRange (lo hi : Z) (c : ascii) : bool :=
  (lo <=? code c) && (code c <=? hi).

(** White space and line terminators: TAB, LF, VT, FF, CR and SPACE. *)
Definition isWhiteSpace (c : ascii) : bool :=
  inRange 9 13 c || (code c =? 32).

(** [\d] *)
Definition isDigit (c : ascii) : bool := inRange 48 57 c.

(** [\w]: letters, digits and the underscore. *)
Definition isWordChar (c : ascii) : bool :=
  inRange 97 122 c || inRange 65 90 c || isDigit c || (code c =? 95).

Fixpoint trimStart (s : string) : string :=
  match s with
  | String c s' => if isWhiteSpace c then trimStart s' else s
  | EmptyString => EmptyString
  end.

Fixpoint trimEnd (s : string) : string :=
  match s with
  | String c s' =>
      match trimEnd s' with
      | EmptyString => if isWhiteSpace c then EmptyString else String c EmptyString
      | t => String c t
      end
  | EmptyString => EmptyString
  end.

(** [s.trim()] *)
Definition trim (s : string) : string := trimEnd (trimStart s).

Definition upperChar (c : ascii) : ascii :=
  if inRange 97 122 c then ascii_of_N (N_of_ascii c - 32) else c.

(** [s.toUpperCase()] *)
Fixpoint toUpperCase (s : string) : string :=
  match s with
  | String c s' => String (upperChar c) (toUpperCase s')
  | EmptyString => EmptyString
  end.

(** [s.length] *)
Definition length (s : string) : Z := Z.of_nat (String.length s).

(** The value of the longest prefix of decimal digits, most significant
    digit first; [None] when the text does not start with a digit. *)
Fixpoint digitsValue (acc : option Z) (s : string) : option Z :=
  match s with
  | String c s' =>
      if isDigit c
      then digitsValue (Some (10 * default 0 acc + (code c - 48))) s'
      else acc
  | EmptyString => acc
  end.

(** [parseInt(s, 10)]; [None] is [NaN].  Leading white space is skipped,
    one sign is read, then the longest run of digits; whatever follows
    the digits is ignored.  The result here is the integer the digits
    spell.  The script gets a number: that integer while it is below 2^53,
    and from there on the nearest number there is. *)
Definition parseInt (s : string) : option Z :=
  match trimStart s with
  | String "-" r => Z.opp <$> digitsValue None r
  | String "+" r => digitsValue None r
  | r => digitsValue None r
  end.

(** [String(n)] for an integer [n]: its decimal numeral.  The script
    prints this numeral for every integer a number holds exactly, those of
    magnitude below 2^53; from 10^21 on it prints an exponent. *)
Definition numberToString (n : Z) : string :=
  NilZero.string_of_int (Z.to_int n).

(** [a.includes(x)] on an array of strings. *)
Definition includes (a : list string) (x : string) : bool :=
  existsb (String.eqb x) a.

(** [x || 0] on a number that may be [null]: the falsy numbers are
    [NaN], [0] and [-0]. *)
Definition orZero (x : option float) : float :=
  match x with
  | Some f => if PrimFloat.is_nan f || PrimFloat.is_zero f then 0%float else f
  | None => 0%float
  end.

(** An integer of magnitude below 2^53 as a number. *)
Definition number (n : Z) : float :=
  if n <? 0 then PrimFloat.opp (PrimFloat.of_uint63 (Uint63.of_Z (- n)))
  else PrimFloat.of_uint63 (Uint63.of_Z n).

End JS.

(** ** The regular expression of the free-text parser *)

Module Regex.

(** One way of matching a piece of the pattern: the text it consumed and
    the text left.  A piece yields its ways in the order in which a
    backtracking matcher tries them. *)
Definition Way : Type := string * string.

Definition consume (c : ascii) (w : Way) : Way := (String c (fst w), snd w).

(** [x*], greedy: the longest run first, the empty run last. *)
Fixpoint star (p : ascii -> bool) (s : string) : list Way :=
  match s with
  | String c s' =>
      if p c then map (consume c) (star p s') ++ [(EmptyString, s)]
      else [(EmptyString, s)]
  | EmptyString => [(EmptyString, s)]
  end.

(** [x+], greedy. *)
Definition plus (p : ascii -> bool) (s : string) : list Way :=
  match s with
  | String c s' => if p c then map (consume c) (star p s') else []
  | EmptyString => []
  end.

(** [x?], greedy: with the character first, without it second. *)
Definition opt (p : ascii -> bool) (s : string) : list Way :=
  match s with
  | String c s' =>
      if p c then [(String c EmptyString, s'); (EmptyString, s)]
      else [(EmptyString, s)]
  | EmptyString => [(EmptyString, s)]
  end.

(** One character of a class. *)
Definition one (p : ascii -> bool) (s : string) : list Way :=
  match s with
  | String c s' => if p c then [(String c EmptyString, s')] else []
  | EmptyString => []
  end.

(** [\b] between the character [prev] and the text [rest]. *)
Definition wordBoundary (prev : option ascii) (rest : string) : bool :=
  xorb (from_option JS.isWordChar false prev)
       (match rest with String c _ => JS.isWordChar c | EmptyString => false end).

Definition lastChar (s : string) : option ascii :=
  last (list_ascii_of_string s).

(** [[:.-]] *)
Definition isSeparator (c : ascii) : bool :=
  (JS.code c =? 58) || (JS.code c =? 46) || (JS.code c =? 45).

(** [[A-D]]: the pattern has no [i] flag. *)
Definition isAtoD (c : ascii) : bool := JS.inRange 65 68 c.

(** What [exec] returns: the matched text with its two groups. *)
Record Match := mkMatch { whole : string; group1 : string; group2 : string }.

(** Every way of matching [(\d+)\s*[:.-]?\s*([A-D])\b] at the start of
    [s], in the matcher's order. *)
Definition matchesAt (s : string) : list Match :=
  '(ds, r1) ← plus JS.isDigit s;
  '(w1, r2) ← star JS.isWhiteSpace r1;
  '(sep, r3) ← opt isSeparator r2;
  '(w2, r4) ← star JS.isWhiteSpace r3;
  '(l, r5) ← one isAtoD r4;
  if wordBoundary (lastChar l) r5
  then [mkMatch (ds ++ w1 ++ sep ++ w2 ++ l) ds l]
  else [].

(** The match found at a position, if any: the first way. *)
Definition matchAt (s : string) : option Match := head (matchesAt s).

(** The loop [while ((match = regex.exec(text)) !== null)] of a global
    pattern: the text is searched from [lastIndex] on, and a match moves
    [lastIndex] to its end.  [skip] counts the characters still inside
    the last match. *)
Fixpoint scan (s : string) (skip : nat) : list Match :=
  match s with
  | String _ s' =>
      match skip with
      | S k => scan s' k
      | O =>
          match matchAt s with
          | Some m => m :: scan s' (pred (String.length (whole m)))
          | None => scan s' O
          end
      end
  | EmptyString => []
  end.

Definition execAll (text : string) : list Match := scan text O.

End Regex.

(** ** The page and the module variables *)

(** The four radio buttons of a row, by their [value]. *)
Inductive Choice := OptA | OptB | OptC | OptD.

Definition value (c : Choice) : string :=
  match c with OptA => "A" | OptB => "B" | OptC => "C" | OptD => "D" end.

(** The array [['A', 'B', 'C', 'D']]. *)
Definition choiceLetters : list string := map value [OptA; OptB; OptC; OptD].

(** The class [gradeSheet] puts on a row. *)
Inductive RowClass := Plain | ClassCorrect | ClassIncorrect.

(** A question row [q-row-i]: the checked radio of its group, whether its
    radios are disabled, whether its Clear button is hidden, its class. *)
Record Row := mkRow {
  checked : option Choice;
  disabled : bool;
  clearHidden : bool;
  rowClass : RowClass }.

(** The texts the script shows, with the numbers they interpolate:
    - [EnterNumber1To200]: 'Please enter a number between 1 and 200.'
    - [ManualKeyHas a q]: 'Manual key has a answers, but there are q
      questions.'
    - [UploadedKeyHas a q]: 'Uploaded key has a answers, but there are q
      questions.'
    - [NoValidAnswersExcel]: 'Could not find valid answers in the Excel
      file.'
    - [NoValidAnswersPdf]: 'Could not find valid answers in the PDF.'
    - [AnswersLoaded n]: 'n answers loaded successfully.'
    - [CanSaveMarkedSheet]: 'You can now save your marked sheet.' *)
Inductive Message :=
| EnterNumber1To200
| ManualKeyHas (answers questions : Z)
| UploadedKeyHas (answers questions : Z)
| NoValidAnswersExcel
| NoValidAnswersPdf
| AnswersLoaded (parsedCount : Z)
| CanSaveMarkedSheet.

(** The score line: marks when a scheme is set ([`${totalScore}`] and
    [`out of ${maxScore}`]), else [`${correct} / ${totalQuestions}`]. *)
Inductive Score :=
| Marks (totalScore maxScore : float)
| RawCount (correct total : Z).

(** The results panel. *)
Record Results := mkResults {
  score : Score;
  correctCount : Z;
  incorrectCount : Z;
  unansweredCount : Z }.

(** The module variables, then the elements of the page the handlers read
    or write.  [timerInterval] tells whether an interval is scheduled.  The
    two marks fields hold [None] when the field is empty and otherwise the
    number [parseFloat] reads from it.  [timeTakenInfo] and [timerDisplay]
    hold the milliseconds the page prints as mm:ss; [results] is [None]
    while the results panel is hidden. *)
Record State := mkState {
  totalQuestions : Z;
  correctMarks : option float;
  wrongMarks : option float;
  answerKey : gmap Z string;
  timerInterval : bool;
  startTime : Z;
  isGraded : bool;
  questionCountInput : string;
  correctMarksInput : option float;
  wrongMarksInput : option float;
  manualKeyInput : string;
  omrSheet : gmap Z Row;
  configError : option Message;
  checkError : option Message;
  statusMessage : option Message;
  timerDisplay : Z;
  timeTakenInfo : option Z;
  results : option Results;
  confirmModal : bool }.

(** The page as loaded. *)
Definition initial : State :=
  mkState 0 None None ∅ false 0 false "" None None "" ∅ None None None 0 None None false.

(** Assignments to one variable or element. *)
Definition set_totalQuestions (v : Z) (st : State) : State :=
  let '(mkState _ b c d e f g h i j k l m n o p q r s) := st in
  mkState v b c d e f g h i j k l m n o p q r s.
Definition set_correctMarks (v : option float) (st : State) : State :=
  let '(mkState a _ c d e f g h i j k l m n o p q r s) := st in
  mkState a v c d e f g h i j k l m n o p q r s.
Definition set_wrongMarks (v : option float) (st : State) : State :=
  let '(mkState a b _ d e f g h i j k l m n o p q r s) := st in
  mkState a b v d e f g h i j k l m n o p q r s.
Definition set_answerKey (v : gmap Z string) (st : State) : State :=
  let '(mkState a b c _ e f g h i j k l m n o p q r s) := st in
  mkState a b c v e f g h i j k l m n o p q r s.
Definition set_timerInterval (v : bool) (st : State) : State :=
  let '(mkState a b c d _ f g h i j k l m n o p q r s) := st in
  mkState a b c d v f g h i j k l m n o p q r s.
Definition set_startTime (v : Z) (st : State) : State :=
  let '(mkState a b c d e _ g h i j k l m n o p q r s) := st in
  mkState a b c d e v g h i j k l m n o p q r s.
Definition set_isGraded (v : bool) (st : State) : State :=
  let '(mkState a b c d e f _ h i j k l m n o p q r s) := st in
  mkState a b c d e f v h i j k l m n o p q r s.
Definition set_questionCountInput (v : string) (st : State) : State :=
  let '(mkState a b c d e f g _ i j k l m n o p q r s) := st in
  mkState a b c d e f g v i j k l m n o p q r s.
Definition set_correctMarksInput (v : option float) (st : State) : State :=
  let '(mkState a b c d e f g h _ j k l m n o p q r s) := st in
  mkState a b c d e f g h v j k l m n o p q r s.
Definition set_wrongMarksInput (v : option float) (st : State) : State :=
  let '(mkState a b c d e f g h i _ k l m n o p q r s) := st in
  mkState a b c d e f g h i v k l m n o p q r s.
Definition set_manualKeyInput (v : string) (st : State) : State :=
  let '(mkState a b c d e f g h i j _ l m n o p q r s) := st in
  mkState a b c d e f g h i j v l m n o p q r s.
Definition set_omrSheet (v : gmap Z Row) (st : State) : State :=
  let '(mkState a b c d e f g h i j k _ m n o p q r s) := st in
  mkState a b c d e f g h i j k v m n o p q r s.
Definition set_configError (v : option Message) (st : State) : State :=
  let '(mkState a b c d e f g h i j k l _ n o p q r s) := st in
  mkState a b c d e f g h i j k l v n o p q r s.
Definition set_checkError (v : option Message) (st : State) : State :=
  let '(mkState a b c d e f g h i j k l m _ o p q r s) := st in
  mkState a b c d e f g h i j k l m v o p q r s.
Definition set_statusMessage (v : option Message) (st : State) : State :=
  let '(mkState a b c d e f g h i j k l m n _ p q r s) := st in
  mkState a b c d e f g h i j k l m n v p q r s.
Definition set_timerDisplay (v : Z) (st : State) : State :=
  let '(mkState a b c d e f g h i j k l m n o _ q r s) := st in
  mkState a b c d e f g h i j k l m n o v q r s.
Definition set_timeTakenInfo (v : option Z) (st : State) : State :=
  let '(mkState a b c d e f g h i j k l m n o p _ r s) := st in
  mkState a b c d e f g h i j k l m n o p v r s.
Definition set_results (v : option Results) (st : State) : State :=
  let '(mkState a b c d e f g h i j k l m n o p q _ s) := st in
  mkState a b c d e f g h i j k l m n o p q v s.
Definition set_confirmModal (v : bool) (st : State) : State :=
  let '(mkState a b c d e f g h i j k l m n o p q r _) := st in
  mkState a b c d e f g h i j k l m n o p q r v.

(** ** Messages *)

(** [showError(configError, m)] and [hideError(configError)]; likewise for
    [checkError] and the status line. *)
Definition showConfigError (m : Message) : State -> State := set_configError (Some m).
Definition hideConfigError : State -> State := set_configError None.
Definition showCheckError (m : Message) : State -> State := set_checkError (Some m).
Definition hideCheckError : State -> State := set_checkError None.
Definition showStatusMessage (m : Message) : State -> State := set_statusMessage (Some m).
Definition hideStatusMessage : State -> State := set_statusMessage None.

(** ** The timer *)

(** [startTimer]: a fresh interval, and the start instant is read. *)
Definition startTimer (now : Z) (st : State) : State :=
  set_timerInterval true (set_startTime now st).

(** The elapsed time both the interval callback and [stopTimer] compute:
    [Date.now() - startTime]. *)
Definition elapsedTime (now : Z) (st : State) : Z := now - startTime st.

(** [stopTimer]: the interval is cleared and the elapsed time is shown. *)
Definition stopTimer (now : Z) (st : State) : State :=
  set_timeTakenInfo (Some (elapsedTime now st)) (set_timerInterval false st).

(** The callback of the interval; it runs only while the interval is set. *)
Definition tick (now : Z) (st : State) : State :=
  if timerInterval st then set_timerDisplay (elapsedTime now st) st else st.

(** ** The sheet *)

(** [createQuestionRow(i)]: four unchecked radios and a Clear button. *)
Definition createQuestionRow : Row := mkRow None false false Plain.

(** The loop [for (let i = 1; i <= totalQuestions; i++)] that appends the
    rows; [n] counts the rounds left. *)
Fixpoint appendRows (i : Z) (n : nat) (sheet : gmap Z Row) : gmap Z Row :=
  match n with
  | O => sheet
  | S n' => appendRows (i + 1) n' (<[i := createQuestionRow]> sheet)
  end.

(** What [resetOMRState] does to every row: classes off, radios enabled
    and unchecked, Clear shown. *)
Definition resetRow (r : Row) : Row := mkRow None false false Plain.

(** [resetOMRState] *)
Definition resetOMRState (st : State) : State :=
  set_omrSheet (resetRow <$> omrSheet st)
    (set_isGraded false
      (hideStatusMessage
        (hideCheckError
          (set_results None
            (set_manualKeyInput ""
              (set_answerKey ∅ st)))))).

(** [generateOMRSheet] *)
Definition generateOMRSheet (now : Z) (st : State) : State :=
  match JS.parseInt (questionCountInput st) with
  | Some count =>
      if (count <? 1) || (count >? 200)
      then showConfigError EnterNumber1To200 st
      else
        let wm := wrongMarksInput st in
        let wm' := match wm with
                   | Some w => if PrimFloat.ltb 0 w then Some (PrimFloat.opp w) else wm
                   | None => wm
                   end in
        startTimer now
          (resetOMRState
            (set_omrSheet (appendRows 1 (Z.to_nat count) ∅)
              (set_wrongMarks wm'
                (set_correctMarks (correctMarksInput st)
                  (set_totalQuestions count
                    (hideConfigError st))))))
  | None => showConfigError EnterNumber1To200 st
  end.

(** [window.clearSelection(i)] *)
Definition clearSelection (i : Z) (st : State) : State :=
  match omrSheet st !! i with
  | Some r => set_omrSheet (<[i := mkRow None false (clearHidden r) (rowClass r)]> (omrSheet st)) st
  | None => st
  end.

(** [resetEverything] *)
Definition resetEverything (st : State) : State :=
  set_timerDisplay 0
    (set_timerInterval false
      (resetOMRState
        (set_wrongMarks None
          (set_correctMarks None
            (set_totalQuestions 0
              (set_omrSheet ∅
                (set_wrongMarksInput None
                  (set_correctMarksInput None
                    (set_questionCountInput "" st))))))))).

(** ** Grading *)

Record Tally := mkTally { correct : Z; incorrect : Z; unanswered : Z }.

(** One round of the loop of [gradeSheet] on row [i]: the radios are
    disabled, the Clear button is hidden, and the row is counted and
    classed by comparing the checked value with [answerKey[i]]. *)
Definition gradeRow (correctAnswer : option string) (r : Row) (t : Tally) : Row * Tally :=
  match checked r with
  | None =>
      (mkRow (checked r) true true Plain,
       mkTally (correct t) (incorrect t) (unanswered t + 1))
  | Some c =>
      if decide (Some (value c) = correctAnswer)
      then (mkRow (checked r) true true ClassCorrect,
            mkTally (correct t + 1) (incorrect t) (unanswered t))
      else (mkRow (checked r) true true ClassIncorrect,
            mkTally (correct t) (incorrect t + 1) (unanswered t))
  end.

(** The loop [for (let i = 1; i <= totalQuestions; i++)] of [gradeSheet];
    [n] counts the rounds left.  [None]: the row [q-row-i] is not in the
    document and the handler stops on a TypeError. *)
Fixpoint gradeRows (key : gmap Z string) (i : Z) (n : nat)
    (sheet : gmap Z Row) (t : Tally) : option (gmap Z Row * Tally) :=
  match n with
  | O => Some (sheet, t)
  | S n' =>
      match sheet !! i with
      | Some r =>
          let '(r', t') := gradeRow (key !! i) r t in
          gradeRows key (i + 1) n' (<[i := r']> sheet) t'
      | None => None
      end
  end.

(** The score line of [gradeSheet]. *)
Definition scoreLine (st : State) (t : Tally) : Score :=
  match correctMarks st with
  | Some cm =>
      Marks (PrimFloat.add (PrimFloat.mul (JS.number (correct t)) cm)
                           (PrimFloat.mul (JS.number (incorrect t)) (JS.orZero (wrongMarks st))))
            (PrimFloat.mul (JS.number (totalQuestions st)) cm)
  | None => RawCount (correct t) (totalQuestions st)
  end.

(** [gradeSheet] *)
Definition gradeSheet (now : Z) (st : State) : option State :=
  let st1 := set_isGraded true (hideCheckError (stopTimer now st)) in
  '(sheet, t) ← gradeRows (answerKey st1) 1 (Z.to_nat (totalQuestions st1))
                          (omrSheet st1) (mkTally 0 0 0);
  Some (set_results
          (Some (mkResults (scoreLine st1 t) (correct t) (incorrect t) (unanswered t)))
          (set_omrSheet sheet st1)).

(** The loop [for (let i = 0; i < manualKey.length; i++)
    answerKey[i + 1] = manualKey[i]]; [s] is the text from index [i] on. *)
Fixpoint fillKey (i : Z) (s : string) (key : gmap Z string) : gmap Z string :=
  match s with
  | String c s' => fillKey (i + 1) s' (<[i + 1 := String c EmptyString]> key)
  | EmptyString => key
  end.

(** The text [handleCheckAnswers] reads from the manual key field. *)
Definition manualKey (st : State) : string :=
  JS.toUpperCase (JS.trim (manualKeyInput st)).

(** [Object.keys(answerKey).length] *)
Definition keyCount (st : State) : Z := Z.of_nat (size (answerKey st)).

(** [handleCheckAnswers] *)
Definition handleCheckAnswers (now : Z) (st : State) : option State :=
  let mk := manualKey st in
  if negb (String.eqb mk "") || (keyCount st >? 0)
  then
    if negb (String.eqb mk "")
    then
      if negb (JS.length mk =? totalQuestions st)
      then Some (showCheckError (ManualKeyHas (JS.length mk) (totalQuestions st)) st)
      else gradeSheet now (set_answerKey (fillKey 0 mk ∅) st)
    else
      if negb (keyCount st =? totalQuestions st)
      then Some (showCheckError (UploadedKeyHas (keyCount st) (totalQuestions st)) st)
      else gradeSheet now st
  else Some (set_confirmModal true st).

(** What [handleConfirmProceed] does to every row: radios disabled, Clear
    hidden. *)
Definition lockRow (r : Row) : Row := mkRow (checked r) true true (rowClass r).

(** [handleConfirmProceed] *)
Definition handleConfirmProceed (now : Z) (st : State) : State :=
  showStatusMessage CanSaveMarkedSheet
    (set_omrSheet (lockRow <$> omrSheet st)
      (set_isGraded false
        (stopTimer now
          (set_confirmModal false st)))).

(** ** Answer keys from files *)

(** A cell of a decoded spreadsheet row: a hole, a number (an integer), a
    text or a truth value. *)
Inductive Cell :=
| CUndefined
| CNumber (n : Z)
| CString (s : string)
| CBoolean (b : bool).

(** [String(x)] on a cell. *)
Definition cellToString (x : Cell) : string :=
  match x with
  | CUndefined => "undefined"
  | CNumber n => JS.numberToString n
  | CString s => s
  | CBoolean b => if b then "true" else "false"
  end.

(** [row[j]]: a hole where the row is too short. *)
Definition cellAt (row : list Cell) (j : nat) : Cell := default CUndefined (row !! j).

(** [parseInt(row[0], 10)] *)
Definition rowNumber (row : list Cell) : option Z :=
  JS.parseInt (cellToString (cellAt row 0)).

(** [String(row[1]).trim().toUpperCase()] *)
Definition rowAnswer (row : list Cell) : string :=
  JS.toUpperCase (JS.trim (cellToString (cellAt row 1))).

(** The callback of [data.forEach] in [parseAnswerKeyFromExcel], on the
    pair of [newKey] and [parsedCount]. *)
Definition excelRow (acc : gmap Z string * Z) (row : list Cell) : gmap Z string * Z :=
  match rowNumber row with
  | Some qNum =>
      if JS.includes choiceLetters (rowAnswer row)
      then (<[qNum := rowAnswer row]> (fst acc), snd acc + 1)
      else acc
  | None => acc
  end.

(** What the two file parsers do once [newKey] and [parsedCount] are
    built. *)
Definition storeParsedKey (failure : Message) (parsed : gmap Z string * Z)
    (st : State) : State :=
  if snd parsed >? 0
  then showStatusMessage (AnswersLoaded (snd parsed))
         (hideCheckError
           (set_manualKeyInput ""
             (set_answerKey (fst parsed) st)))
  else showCheckError failure st.

(** [parseAnswerKeyFromExcel] *)
Definition parseAnswerKeyFromExcel (data : list (list Cell)) (st : State) : State :=
  storeParsedKey NoValidAnswersExcel (fold_left excelRow data (∅, 0)) st.

(** One round of the loop of [parseAnswerKeyFromText]:
    [newKey[parseInt(match[1], 10)] = match[2].toUpperCase(); parsedCount++].
    Group 1 is a run of digits, so [parseInt] reads a number from it. *)
Definition textMatch (acc : gmap Z string * Z) (m : Regex.Match) : gmap Z string * Z :=
  match JS.parseInt (Regex.group1 m) with
  | Some qNum => (<[qNum := JS.toUpperCase (Regex.group2 m)]> (fst acc), snd acc + 1)
  | None => (fst acc, snd acc + 1)
  end.

(** [parseAnswerKeyFromText] *)
Definition parseAnswerKeyFromText (text : string) (st : State) : State :=
  storeParsedKey NoValidAnswersPdf (fold_left textMatch (Regex.execAll text) (∅, 0)) st.

(** ** What the user and the page can do *)

(** A click on radio [c] of row [i]: nothing when the radio is disabled or
    the row is not there. *)
Definition clickRadio (i : Z) (c : Choice) (st : State) : State :=
  match omrSheet st !! i with
  | Some r =>
      if disabled r then st
      else set_omrSheet (<[i := mkRow (Some c) (disabled r) (clearHidden r) (rowClass r)]> (omrSheet st)) st
  | None => st
  end.

(** A click on the Clear button of row [i]: nothing when the button is
    hidden. *)
Definition clickClear (i : Z) (st : State) : State :=
  match omrSheet st !! i with
  | Some r => if clearHidden r then st else clearSelection i st
  | None => st
  end.

(** The events of a session.  An event of the form or of the sheet is what
    the browser does on the user's action; each of the others is one run of
    a handler of the script: [GenerateSheet] of [generateOMRSheet] (the
    Generate button, or Enter in the count field), [CheckAnswers] of
    [handleCheckAnswers] (the check button keeps this click listener in
    every state of the page), [ConfirmYes] of [handleConfirmProceed],
    [ResetSheet] of [resetEverything], [ExcelDecoded] and [PdfDecoded] of
    the two parsers once a file is decoded, [Tick] of the interval
    callback.  The clock reading a handler takes comes with its event. *)
Inductive Event :=
| TypeQuestionCount (s : string)
| TypeCorrectMarks (v : option float)
| TypeWrongMarks (v : option float)
| TypeManualKey (s : string)
| GenerateSheet (now : Z)
| ClickRadio (i : Z) (c : Choice)
| ClickClear (i : Z)
| CheckAnswers (now : Z)
| ConfirmYes (now : Z)
| ConfirmNo
| ResetSheet
| ExcelDecoded (data : list (list Cell))
| PdfDecoded (text : string)
| Tick (now : Z).

(** The handler an event runs.  [None]: the handler stopped on an
    exception (a row of the sheet was missing). *)
Definition step (e : Event) (st : State) : option State :=
  match e with
  | TypeQuestionCount s => Some (set_questionCountInput s st)
  | TypeCorrectMarks v => Some (set_correctMarksInput v st)
  | TypeWrongMarks v => Some (set_wrongMarksInput v st)
  | TypeManualKey s => Some (set_manualKeyInput s st)
  | GenerateSheet now => Some (generateOMRSheet now st)
  | ClickRadio i c => Some (clickRadio i c st)
  | ClickClear i => Some (clickClear i st)
  | CheckAnswers now => handleCheckAnswers now st
  | ConfirmYes now => Some (handleConfirmProceed now st)
  | ConfirmNo => Some (set_confirmModal false st)
  | ResetSheet => Some (resetEverything st)
  | ExcelDecoded data => Some (parseAnswerKeyFromExcel data st)
  | PdfDecoded text => Some (parseAnswerKeyFromText text st)
  | Tick now => Some (tick now st)
  end.

(** A run of events from a state. *)
Fixpoint run (es : list Event) (st : State) : option State :=
  match es with
  | e :: es' => st' ← step e st; run es' st'
  | [] => Some st
  end.

(** ** The vocabulary of the specification *)

(** The verdict on one question. *)
Inductive Verdict := Unanswered | Correct | Incorrect.

#[global] Instance Verdict_eq_dec : EqDecision Verdict.
Proof. solve_decision. Defined.

(** No response recorded: Unanswered; the response equals the key entry:
    Correct; otherwise: Incorrect. *)
Definition verdictOf (response : option Choice) (keyEntry : option string) : Verdict :=
  match response with
  | None => Unanswered
  | Some c => if decide (Some (value c) = keyEntry) then Correct else Incorrect
  end.

(** The response recorded for question [i] on a sheet. *)
Definition response (sheet : gmap Z Row) (i : Z) : option Choice :=
  sheet !! i ≫= checked.

Definition verdictAt (key : gmap Z string) (sheet : gmap Z Row) (i : Z) : Verdict :=
  verdictOf (response sheet i) (key !! i).

(** How many of the questions [qs] have verdict [v]. *)
Fixpoint countVerdict (v : Verdict) (f : Z -> Verdict) (qs : list Z) : Z :=
  match qs with
  | q :: qs' => (if decide (f q = v) then 1 else 0) + countVerdict v f qs'
  | [] => 0
  end.

(** How the page shows a verdict on a row. *)
Definition classOf (v : Verdict) : RowClass :=
  match v with
  | Unanswered => Plain
  | Correct => ClassCorrect
  | Incorrect => ClassIncorrect
  end.

Definition gradedRow (keyEntry : option string) (r : Row) : Row :=
  mkRow (checked r) true true (classOf (verdictOf (checked r) keyEntry)).

Definition bump (v : Verdict) (t : Tally) : Tally :=
  match v with
  | Unanswered => mkTally (correct t) (incorrect t) (unanswered t + 1)
  | Correct => mkTally (correct t + 1) (incorrect t) (unanswered t)
  | Incorrect => mkTally (correct t) (incorrect t + 1) (unanswered t)
  end.

(** The sheet has exactly the rows of the questions [1..totalQuestions]. *)
Definition SheetLaidOut (st : State) : Prop :=
  dom (omrSheet st) = list_to_set (seqZ 1 (totalQuestions st)).

(** Every radio is disabled and every Clear button is hidden. *)
Definition Frozen (st : State) : Prop :=
  forall i r, omrSheet st !! i = Some r -> disabled r = true /\ clearHidden r = true.

(** The test of [parseAnswerKeyFromExcel] on a row:
    [!isNaN(qNum) && ['A', 'B', 'C', 'D'].includes(answer)]. *)
Definition rowAccepted (row : list Cell) : bool :=
  match rowNumber row with
  | Some _ => JS.includes choiceLetters (rowAnswer row)
  | None => false
  end.

(** The rows of a table that pass the test, in order. *)
Definition acceptedRows (data : list (list Cell)) : list (list Cell) :=
  List.filter rowAccepted data.

(** [newKey[qNum] = answer] for a row. *)
Definition storeRow (key : gmap Z string) (row : list Cell) : gmap Z string :=
  match rowNumber row with
  | Some qNum => <[qNum := rowAnswer row]> key
  | None => key
  end.

(** Every value of a key is one of the four letters. *)
Definition ValuesAreLetters (key : gmap Z string) : Prop :=
  forall q v, key !! q = Some v -> v ∈ choiceLetters.

(** The events that run [generateOMRSheet], the only caller of
    [startTimer]. *)
Definition isGenerate (e : Event) : bool :=
  match e with GenerateSheet _ => true | _ => false end.

(** The events that run [resetOMRState]: a reset or a new sheet. *)
Definition isReset (e : Event) : bool :=
  match e with GenerateSheet _ | ResetSheet => true | _ => false end.

(** ** Sample sessions *)

(** A sheet generated at instant [t0] from the three fields of the form. *)
Definition sheetOf (count : string) (cm wm : option float) (t0 : Z) : State :=
  generateOMRSheet t0
    (set_wrongMarksInput wm (set_correctMarksInput cm (set_questionCountInput count initial))).

(** Three questions, 2 marks for a right answer and -1 for a wrong one;
    the key is A, B, C and the answers are A, C and none. *)
Definition gradingSample : State :=
  set_answerKey (<[1 := "A"]> (<[2 := "B"]> (<[3 := "C"]> ∅)))
    (clickRadio 2 OptC
      (clickRadio 1 OptA
        (sheetOf "3" (Some 2%float) (Some (-1)%float) 0))).

(** The table of the specification's example. *)
Definition sampleTable : list (list Cell) :=
  [[CNumber 1; CString "a"]; [CString "x"; CString "B"]; [CNumber 2; CString "c"]].

(** The text of the specification's example, and the same text with its
    only lower-case letter in upper case. *)
Definition sampleText : string := "1. A 2: b 3-C 10 D".
Definition sampleTextUpper : string := "1. A 2: B 3-C 10 D".



(** ** Statements of the specification that the script does not meet,
       worded as the specification words them *)


(** The rule for a row of a table as the specification words it: the row
    is counted exactly when column 0 parses as an integer and column 1,
    upper-cased, is one of the four letters. *)
Definition RowRuleAsWorded (row : list Cell) : Prop :=
  (forall acc, snd (excelRow acc row) = snd acc + 1) <->
  (is_Some (rowNumber row) /\
   JS.toUpperCase (cellToString (cellAt row 1)) ∈ choiceLetters).

(** The invariant of stored keys as the specification words it: only
    question numbers of the sheet, only the four letters. *)
Definition KeyWithinSheet (st : State) : Prop :=
  forall q v, answerKey st !! q = Some v ->
              1 <= q <= totalQuestions st /\ v ∈ choiceLetters.



(** The rule of the count field as the specification words it: an input
    that is not an integer of [1..200], so that no numeral of such an
    integer spells it, is refused with the message and the sheet and the
    number of questions stay as they were. *)
Definition CountOutsideRefused (s : string) (now : Z) (st : State) : Prop :=
  (forall n, 1 <= n <= 200 -> s <> JS.numberToString n) ->
  let st' := generateOMRSheet now (set_questionCountInput s st) in
  configError st' = Some EnterNumber1To200 /\
  totalQuestions st' = totalQuestions st /\ omrSheet st' = omrSheet st.

(** ** The rest of the script: the clock display *)

(** [s.padStart(n, c)] for a pad of one character. *)
Definition padStart (n : nat) (c : ascii) (s : string) : string :=
  string_of_list_ascii (repeat c (n - String.length s)) ++ s.

(** [formatTime(ms)]: [Math.floor] of a quotient is the floor division
    and [%] is the remainder that takes the sign of the dividend. *)
Definition formatTime (ms : Z) : string :=
  let totalSeconds := ms / 1000 in
  let minutes := padStart 2 "0" (JS.numberToString (totalSeconds / 60)) in
  let seconds := padStart 2 "0" (JS.numberToString (Z.rem totalSeconds 60)) in
  minutes ++ ":" ++ seconds.

(** The text of the timer and of the time-taken line, as the page prints
    the milliseconds the state holds. *)
Definition timerDisplayText (st : State) : string := formatTime (timerDisplay st).

Definition timeTakenText (st : State) : option string :=
  (fun ms => "Time Taken: " ++ formatTime ms) <$> timeTakenInfo st.

(** ** The rest of the script: uploaded files *)

Definition lowerChar (c : ascii) : ascii :=
  if JS.inRange 65 90 c then ascii_of_N (N_of_ascii c + 32) else c.

(** [s.toLowerCase()] *)
Fixpoint toLowerCase (s : string) : string :=
  match s with
  | String c s' => String (lowerChar c) (toLowerCase s')
  | EmptyString => EmptyString
  end.

(** [s.split(sep)] for a separator of one character: the pieces between
    the separators, one piece for a text without any. *)
Fixpoint split (sep : ascii) (s : string) : list string :=
  match s with
  | String c s' =>
      if Ascii.eqb c sep then EmptyString :: split sep s'
      else match split sep s' with
           | piece :: pieces => String c piece :: pieces
           | [] => [String c EmptyString]
           end
  | EmptyString => [EmptyString]
  end.

(** [file.name.split('.').pop().toLowerCase()] *)
Definition extension (name : string) : string :=
  toLowerCase (default EmptyString (last (split "." name))).

(** A chosen file: its name and what the two decoders of the page make of
    its bytes.  [asWorkbook]: the rows of the first sheet, as [XLSX.read]
    and [sheet_to_json] give them, or [None] when they throw.  [asPdf]:
    the strings of the text items of each page, as [pdfjsLib] gives them,
    or [None] when its promise is rejected. *)
Record File := mkFile {
  fileName : string;
  asWorkbook : option (list (list Cell));
  asPdf : option (list (list string)) }.

(** The line feed the script puts after each page. *)
Definition lineFeed : string := String (ascii_of_nat 10) EmptyString.

(** [fullText += item.str + ' '] *)
Definition addItem (fullText item : string) : string := fullText ++ item ++ " ".

(** The items of a page, then [fullText += '\n']. *)
Definition addPage (fullText : string) (items : list string) : string :=
  fold_left addItem items fullText ++ lineFeed.

(** The text [handleFileUpload] hands to [parseAnswerKeyFromText]. *)
Definition pdfText (pages : list (list string)) : string :=
  fold_left addPage pages EmptyString.

(** The messages of [handleFileUpload]: 'Failed to process Excel file.',
    'Failed to process PDF file.' and 'Unsupported file type. Please use
    .xlsx, .xls, or .pdf'. *)
Inductive UploadMessage := FailedExcel | FailedPdf | UnsupportedType.

(** What an upload comes to: nothing (no file was chosen), the state a
    parser leaves, or one of the messages in the error line of the check
    panel with the state otherwise as it was. *)
Inductive Upload :=
| Ignored
| Parsed (st' : State)
| Refused (m : UploadMessage).

(** [handleFileUpload], with the state the page is in when the decoder is
    done. *)
Definition handleFileUpload (file : option File) (st : State) : Upload :=
  match file with
  | Some f =>
      let ext := extension (fileName f) in
      if String.eqb ext "xlsx" || String.eqb ext "xls"
      then match asWorkbook f with
           | Some data => Parsed (parseAnswerKeyFromExcel data st)
           | None => Refused FailedExcel
           end
      else if String.eqb ext "pdf"
      then match asPdf f with
           | Some pages => Parsed (parseAnswerKeyFromText (pdfText pages) st)
           | None => Refused FailedPdf
           end
      else Refused UnsupportedType
  | None => Ignored
  end.

(** ** The rest of the script: the report *)

(** How a bubble of the report is drawn: the default outline, or filled
    in blue, green or red; and whether the green ring is drawn around it. *)
Inductive Ink := Outline | Blue | Green | Red.

Record Bubble := mkBubble { ink : Ink; ringed : bool }.

(** [userAnswer === correctAnswer]: [userAnswer] is a letter or [null],
    [correctAnswer] a text or [undefined]. *)
Definition sameAnswer (userAnswer correctAnswer : option string) : bool :=
  match userAnswer, correctAnswer with
  | Some u, Some c => String.eqb u c
  | _, _ => false
  end.

(** The callback of [options.forEach] in [saveResultAsPDF]. *)
Definition drawBubble (graded : bool) (userAnswer correctAnswer : option string)
    (letter : string) : Bubble :=
  mkBubble
    (if bool_decide (userAnswer = Some letter)
     then if graded
          then if sameAnswer userAnswer correctAnswer then Green else Red
          else Blue
     else Outline)
    (graded && negb (sameAnswer userAnswer correctAnswer)
     && bool_decide (correctAnswer = Some letter)).

(** The bubbles of question [i]. *)
Definition reportRow (st : State) (i : Z) : list Bubble :=
  map (drawBubble (isGraded st) (value <$> response (omrSheet st) i) (answerKey st !! i))
      choiceLetters.

(** The top of the report: the score line, the time and the counters of
    a graded sheet, or the time alone. *)
Inductive ReportHeader :=
| ScoreAndTime (r : option Results) (time : option string)
| TimeOnly (time : option string).

Record Report := mkReport {
  header : ReportHeader;
  rows : list (Z * list Bubble) }.

(** What [saveResultAsPDF] draws, page breaks apart (they depend on the
    page size of the PDF library). *)
Definition saveResultAsPDF (st : State) : Report :=
  mkReport
    (if isGraded st then ScoreAndTime (results st) (timeTakenText st)
     else TimeOnly (timeTakenText st))
    (map (fun i => (i, reportRow st i)) (seqZ 1 (totalQuestions st))).


(** ** Keys written out *)

(** [Number.isSafeInteger]: the integers a number holds exactly, on which
    [String] and [parseInt] are the numeral and its value. *)
Definition safeInteger (n : Z) : Prop := - 2 ^ 53 < n < 2 ^ 53.

(** The key a list of entries spells, a later entry replacing an earlier
    one for the same question. *)
Definition addEntry (key : gmap Z string) (e : Z * Choice) : gmap Z string :=
  <[fst e := value (snd e)]> key.

Definition keyOfEntries (entries : list (Z * Choice)) : gmap Z string :=
  fold_left addEntry entries ∅.

(** The entries as rows of a table: the number, then the letter. *)
Definition tableOfEntries (entries : list (Z * Choice)) : list (list Cell) :=
  map (fun e => [CNumber (fst e); CString (value (snd e))]) entries.

(** The entries as text items of a page: the number with a period, then
    the letter. *)
Definition itemsOfEntries (entries : list (Z * Choice)) : list string :=
  flat_map (fun e => [JS.numberToString (fst e) ++ "."; value (snd e)]) entries.

(** ** What holds in every state of a session *)



(** A text of decimal digits only. *)
Fixpoint allDigits (s : string) : bool :=
  match s with
  | String c s' => JS.isDigit c && allDigits s'
  | EmptyString => true
  end.

(** An entry as it stands in the text of a page: the two items, each
    with the blank that follows it. *)
Definition entryText (e : Z * Choice) : string :=
  JS.numberToString (fst e) ++ ". " ++ value (snd e) ++ " ".

(** What the pattern finds in the text of an entry. *)
Definition entryMatch (e : Z * Choice) : Regex.Match :=
  Regex.mkMatch (JS.numberToString (fst e) ++ ". " ++ value (snd e))
                (JS.numberToString (fst e)) (value (snd e)).

(** The text of the pages of a document that lists entries. *)
Definition entriesText (entries : list (Z * Choice)) : string :=
  fold_right (fun e t => entryText e ++ t) EmptyString entries.

Definition pagesText (pages : list (list (Z * Choice))) : string :=
  fold_right (fun es t => entriesText es ++ lineFeed ++ t) EmptyString pages.

(** The text does not begin with a digit. *)
Definition noDigitAhead (s : string) : bool :=
  match s with
  | String c _ => negb (JS.isDigit c)
  | EmptyString => true
  end.

(** A text without a period. *)
Fixpoint noDot (s : string) : bool :=
  match s with
  | String c s' => negb (Ascii.eqb c ".") && noDot s'
  | EmptyString => true
  end.

#[global] Instance Choice_eq_dec : EqDecision Choice.
Proof. solve_decision. Defined.

(** * Proofs *)

Lemma SheetLaidOut_lookup st i :
  SheetLaidOut st -> is_Some (omrSheet st !! i) <-> 1 <= i <= totalQuestions st.
Proof.
  unfold SheetLaidOut. intros H.
  rewrite <- elem_of_dom, H, elem_of_list_to_set, elem_of_seqZ. lia.
Qed.

Lemma gradeRow_spec keyEntry r t :
  gradeRow keyEntry r t = (gradedRow keyEntry r, bump (verdictOf (checked r) keyEntry) t).
Proof.
  unfold gradeRow, gradedRow, verdictOf.
  destruct (checked r) as [c|]; [|reflexivity].
  destruct (decide (Some (value c) = keyEntry)); reflexivity.
Qed.

Lemma countVerdict_ext v f g qs :
  (forall q, q ∈ qs -> f q = g q) -> countVerdict v f qs = countVerdict v g qs.
Proof.
  induction qs as [|q qs IH]; intros H; simpl; [reflexivity|].
  rewrite (H q) by constructor.
  rewrite IH; [reflexivity|].
  intros q' Hq'. apply H. by constructor.
Qed.

Lemma countVerdict_total f qs :
  countVerdict Correct f qs + countVerdict Incorrect f qs + countVerdict Unanswered f qs
  = Z.of_nat (length qs).
Proof.
  induction qs as [|q qs IH]; [reflexivity|].
  cbn [countVerdict length]. rewrite Nat2Z.inj_succ.
  destruct (f q); repeat case_decide; try congruence; lia.
Qed.

Lemma verdictAt_insert_ne key sheet i r q :
  i ≠ q -> verdictAt key (<[i := r]> sheet) q = verdictAt key sheet q.
Proof. intros H. unfold verdictAt, response. by rewrite lookup_insert_ne. Qed.

(** The loop runs to its end on a sheet that has the rows it visits; it
    grades each of them in place and counts the verdicts. *)
Lemma gradeRows_spec key n :
  forall i sheet t,
    (forall j, i <= j < i + Z.of_nat n -> is_Some (sheet !! j)) ->
    exists sheet' t',
      gradeRows key i n sheet t = Some (sheet', t') /\
      (forall j, sheet' !! j =
                 if bool_decide (i <= j < i + Z.of_nat n)
                 then gradedRow (key !! j) <$> sheet !! j
                 else sheet !! j) /\
      correct t' = correct t + countVerdict Correct (verdictAt key sheet) (seqZ i (Z.of_nat n)) /\
      incorrect t' = incorrect t + countVerdict Incorrect (verdictAt key sheet) (seqZ i (Z.of_nat n)) /\
      unanswered t' = unanswered t + countVerdict Unanswered (verdictAt key sheet) (seqZ i (Z.of_nat n)).
Proof.
  induction n as [|n IH]; intros i sheet t Hrows.
  - exists sheet, t. simpl. split; [reflexivity|]. split.
    + intros j. rewrite bool_decide_eq_false_2 by lia. reflexivity.
    + repeat split; lia.
  - destruct (Hrows i) as [r Hr]; [lia|].
    cbn [gradeRows]. rewrite Hr, gradeRow_spec.
    destruct (IH (i + 1) (<[i := gradedRow (key !! i) r]> sheet)
                 (bump (verdictOf (checked r) (key !! i)) t))
      as (sheet' & t' & Hrun & Hlook & Hc & Hi & Hu).
    { intros j Hj. rewrite lookup_insert_ne by lia. apply Hrows. lia. }
    exists sheet', t'. split; [exact Hrun|]. split.
    + intros j. rewrite Hlook.
      destruct (decide (j = i)) as [->|Hne].
      * rewrite bool_decide_eq_false_2 by lia.
        rewrite bool_decide_eq_true_2 by lia.
        rewrite lookup_insert_eq, Hr. reflexivity.
      * rewrite lookup_insert_ne by congruence.
        destruct (decide (i + 1 <= j < i + 1 + Z.of_nat n)).
        -- rewrite !bool_decide_eq_true_2 by lia. reflexivity.
        -- rewrite !bool_decide_eq_false_2 by lia. reflexivity.
    + rewrite Nat2Z.inj_succ, seqZ_cons by lia.
      replace (Z.pred (Z.succ (Z.of_nat n))) with (Z.of_nat n) by lia.
      replace (Z.succ i) with (i + 1) by lia.
      assert (Hv : verdictAt key sheet i = verdictOf (checked r) (key !! i)).
      { unfold verdictAt, response. rewrite Hr. reflexivity. }
      assert (Hext : forall v,
                 countVerdict v (verdictAt key (<[i := gradedRow (key !! i) r]> sheet))
                              (seqZ (i + 1) (Z.of_nat n))
                 = countVerdict v (verdictAt key sheet) (seqZ (i + 1) (Z.of_nat n))).
      { intros v. apply countVerdict_ext. intros q Hq.
        apply elem_of_seqZ in Hq. apply verdictAt_insert_ne. lia. }
      rewrite !Hext in *. cbn [countVerdict]. rewrite Hv.
      destruct (verdictOf (checked r) (key !! i)); simpl in *;
        repeat case_decide; try congruence; lia.
Qed.

Lemma seqZ_to_nat m n : seqZ m (Z.of_nat (Z.to_nat n)) = seqZ m n.
Proof. unfold seqZ. by rewrite Nat2Z.id. Qed.

(** [gradeSheet] on a laid-out sheet: it runs to its end, and what it
    leaves on the rows and in the results panel is told by the verdicts. *)
Lemma gradeSheet_spec now st :
  SheetLaidOut st ->
  exists st' r,
    gradeSheet now st = Some st' /\ results st' = Some r /\
    (forall j, omrSheet st' !! j =
               if bool_decide (1 <= j <= totalQuestions st)
               then gradedRow (answerKey st !! j) <$> omrSheet st !! j
               else omrSheet st !! j) /\
    correctCount r =
      countVerdict Correct (verdictAt (answerKey st) (omrSheet st)) (seqZ 1 (totalQuestions st)) /\
    incorrectCount r =
      countVerdict Incorrect (verdictAt (answerKey st) (omrSheet st)) (seqZ 1 (totalQuestions st)) /\
    unansweredCount r =
      countVerdict Unanswered (verdictAt (answerKey st) (omrSheet st)) (seqZ 1 (totalQuestions st)) /\
    score r = scoreLine st (mkTally (correctCount r) (incorrectCount r) (unansweredCount r)) /\
    st' = set_results (Some r)
            (set_omrSheet (omrSheet st')
              (set_isGraded true (hideCheckError (stopTimer now st)))).
Proof.
  intros Hlaid.
  destruct (gradeRows_spec (answerKey st) (Z.to_nat (totalQuestions st)) 1
              (omrSheet st) (mkTally 0 0 0))
    as (sheet' & t' & Hrun & Hlook & Hc & Hi & Hu).
  { intros j Hj. apply SheetLaidOut_lookup; [exact Hlaid | lia]. }
  rewrite seqZ_to_nat in Hc, Hi, Hu. simpl in Hc, Hi, Hu.
  destruct st as [tq cm wm key ti stt ig qci cmi wmi mki sheet ce che sm td tti res cmo].
  unfold gradeSheet. cbn in *. rewrite Hrun. cbn.
  eexists _, _. split; [reflexivity|]. cbn.
  split; [reflexivity|]. split.
  { intros j. rewrite Hlook.
    destruct (decide (1 <= j <= tq)).
    - rewrite !bool_decide_eq_true_2 by lia. reflexivity.
    - rewrite !bool_decide_eq_false_2 by lia. reflexivity. }
  repeat split; assumption.
Qed.



(** ** Numerals *)

Lemma digitsValue_acc d :
  forall p,
    JS.digitsValue (Some (Z.pos p)) (NilEmpty.string_of_uint d)
    = Some (Z.pos (Pos.of_uint_acc d p)).
Proof.
  induction d; intros p; cbn [NilEmpty.string_of_uint Pos.of_uint_acc];
    [reflexivity | ..];
    cbn [JS.digitsValue]; change (JS.isDigit _) with true; cbn [default];
    rewrite <- IHd; do 2 f_equal; unfold id;
    set (k := JS.code _ - 48); vm_compute in k; subst k; lia.
Qed.

Lemma digitsValue_numeral d :
  forall a,
    default 0 a = 0 ->
    JS.digitsValue a (NilEmpty.string_of_uint d)
    = match d with Decimal.Nil => a | _ => Some (Z.of_N (Pos.of_uint d)) end.
Proof.
  induction d; intros a Ha; cbn [NilEmpty.string_of_uint];
    [reflexivity | ..];
    cbn [JS.digitsValue]; change (JS.isDigit _) with true; rewrite Ha;
    set (k := 10 * 0 + (JS.code _ - 48)); vm_compute in k; subst k.
  - rewrite IHd by reflexivity. cbn [Pos.of_uint]. by destruct d.
  - apply (digitsValue_acc d).
  - apply (digitsValue_acc d).
  - apply (digitsValue_acc d).
  - apply (digitsValue_acc d).
  - apply (digitsValue_acc d).
  - apply (digitsValue_acc d).
  - apply (digitsValue_acc d).
  - apply (digitsValue_acc d).
  - apply (digitsValue_acc d).
Qed.

Lemma to_uint_not_Nil p : Pos.to_uint p <> Decimal.Nil.
Proof.
  intros H. pose proof (DecimalPos.Unsigned.of_to p) as Hp.
  rewrite H in Hp. discriminate.
Qed.

(** The numeral of a positive number: digits only, the first one not
    a zero, and the digits give the number back. *)
Lemma numeral_pos p :
  exists c s,
    NilEmpty.string_of_uint (Pos.to_uint p) = String c s /\
    JS.isDigit c = true /\
    JS.digitsValue None (String c s) = Some (Z.pos p).
Proof.
  pose proof (digitsValue_numeral (Pos.to_uint p) None eq_refl) as Hv.
  pose proof (to_uint_not_Nil p) as Hne.
  pose proof (DecimalPos.Unsigned.of_to p) as Hp.
  destruct (Pos.to_uint p) as [|d|d|d|d|d|d|d|d|d|d]; [contradiction | ..];
    rewrite Hp in Hv; eexists _, _; (split; [reflexivity|]); split;
    solve [reflexivity | exact Hv].
Qed.

Lemma parseInt_digits c s :
  JS.isDigit c = true -> JS.parseInt (String c s) = JS.digitsValue None (String c s).
Proof.
  intros H.
  destruct c as [[] [] [] [] [] [] [] []]; try discriminate H; reflexivity.
Qed.

(** [parseInt] reads the numeral of every integer as that integer. *)
Lemma parseInt_numberToString n : JS.parseInt (JS.numberToString n) = Some n.
Proof.
  destruct n as [|p|p]; [reflexivity | |].
  - destruct (numeral_pos p) as (c & s & Hs & Hc & Hv).
    unfold JS.numberToString. cbn [Z.to_int NilZero.string_of_int].
    unfold NilZero.string_of_uint.
    pose proof (to_uint_not_Nil p) as Hne.
    destruct (Pos.to_uint p) eqn:Hd; [contradiction | ..];
      rewrite Hs, parseInt_digits by assumption; exact Hv.
  - destruct (numeral_pos p) as (c & s & Hs & Hc & Hv).
    unfold JS.numberToString. cbn [Z.to_int NilZero.string_of_int].
    unfold NilZero.string_of_uint.
    pose proof (to_uint_not_Nil p) as Hne.
    destruct (Pos.to_uint p) eqn:Hd; [contradiction | ..];
      rewrite Hs; change (JS.parseInt (String "-" (String c s)))
        with (Z.opp <$> JS.digitsValue None (String c s));
      rewrite Hv; reflexivity.
Qed.

Lemma numberToString_nonneg n :
  0 <= n ->
  exists c s,
    JS.numberToString n = String c s /\ JS.isDigit c = true /\
    JS.digitsValue None (String c s) = Some n.
Proof.
  intros Hn. destruct n as [|p|p]; [by exists "0"%char, EmptyString | | lia].
  destruct (numeral_pos p) as (c & s & Hs & Hc & Hv).
  exists c, s. split; [|by split].
  unfold JS.numberToString. cbn [Z.to_int NilZero.string_of_int].
  unfold NilZero.string_of_uint.
  pose proof (to_uint_not_Nil p) as Hne.
  destruct (Pos.to_uint p); [contradiction | ..]; exact Hs.
Qed.

Lemma numeral_allDigits d : allDigits (NilEmpty.string_of_uint d) = true.
Proof. induction d; cbn [NilEmpty.string_of_uint allDigits]; [reflexivity | ..]; exact IHd. Qed.

(** The numeral of a number that is not negative: digits, at least one. *)
Lemma numberToString_digits n :
  0 <= n ->
  exists c s, JS.numberToString n = String c s /\ allDigits (String c s) = true.
Proof.
  intros Hn. destruct n as [|p|p]; [by exists "0"%char, EmptyString | | lia].
  destruct (numeral_pos p) as (c & s & Hs & _).
  exists c, s. rewrite <- Hs. split; [|apply numeral_allDigits].
  unfold JS.numberToString. cbn [Z.to_int NilZero.string_of_int].
  unfold NilZero.string_of_uint.
  pose proof (to_uint_not_Nil p) as Hne.
  by destruct (Pos.to_uint p).
Qed.

(** The greedy star takes a whole run of digits first. *)
(** [parseInt] stops at the first character that is not a digit. *)
Lemma digitsValue_app s :
  forall acc rest,
    allDigits s = true -> noDigitAhead rest = true ->
    JS.digitsValue acc (s ++ rest) = JS.digitsValue acc s.
Proof.
  induction s as [|c s IH]; intros acc rest Hs Hrest.
  - change (EmptyString ++ rest) with rest.
    destruct rest as [|c r]; [reflexivity|].
    cbn [noDigitAhead] in Hrest. apply negb_true_iff in Hrest.
    cbn [JS.digitsValue]. by rewrite Hrest.
  - cbn [allDigits] in Hs. apply andb_true_iff in Hs as [Hc Hs].
    change (String c s ++ rest) with (String c (s ++ rest)).
    cbn [JS.digitsValue]. rewrite Hc. by apply IH.
Qed.

(** A text that begins with the numeral of a number that is not negative
    and goes on with something else than a digit is read as that number. *)
Lemma parseInt_leading_numeral n rest :
  0 <= n -> noDigitAhead rest = true ->
  JS.parseInt (JS.numberToString n ++ rest) = Some n.
Proof.
  intros Hn Hrest.
  destruct (numberToString_nonneg n Hn) as (c & s & Hs & Hc & Hv).
  destruct (numberToString_digits n Hn) as (c' & s' & Hs' & Hall).
  rewrite Hs in Hs'. injection Hs' as <- <-. rewrite Hs.
  change (String c s ++ rest) with (String c (s ++ rest)).
  rewrite parseInt_digits by assumption.
  change (String c (s ++ rest)) with (String c s ++ rest).
  by rewrite digitsValue_app.
Qed.

(** ** Generating a sheet *)

Lemma appendRows_lookup n :
  forall i sheet j,
    appendRows i n sheet !! j =
    if bool_decide (i <= j < i + Z.of_nat n) then Some createQuestionRow else sheet !! j.
Proof.
  induction n as [|n IH]; intros i sheet j.
  - simpl. rewrite bool_decide_eq_false_2 by lia. reflexivity.
  - cbn [appendRows]. rewrite IH.
    destruct (decide (j = i)) as [->|Hne].
    + rewrite bool_decide_eq_false_2 by lia.
      rewrite bool_decide_eq_true_2 by lia.
      by rewrite lookup_insert_eq.
    + rewrite lookup_insert_ne by congruence.
      destruct (decide (i + 1 <= j < i + 1 + Z.of_nat n)).
      * rewrite !bool_decide_eq_true_2 by lia. reflexivity.
      * rewrite !bool_decide_eq_false_2 by lia. reflexivity.
Qed.

Lemma range_test count :
  (count <? 1) || (count >? 200) = false <-> 1 <= count <= 200.
Proof.
  rewrite orb_false_iff, Z.ltb_ge, Z.gtb_ltb, Z.ltb_ge. reflexivity.
Qed.

(** The sheet of a laid-out state has as many rows as questions. *)
Lemma SheetLaidOut_size st :
  SheetLaidOut st -> 0 <= totalQuestions st ->
  Z.of_nat (size (omrSheet st)) = totalQuestions st.
Proof.
  unfold SheetLaidOut. intros H Hpos.
  rewrite <- size_dom, H, size_list_to_set by apply NoDup_seqZ.
  rewrite length_seqZ. lia.
Qed.

Lemma dom_rows (sheet : gmap Z Row) n :
  (forall i, is_Some (sheet !! i) <-> 1 <= i <= n) ->
  dom sheet = list_to_set (seqZ 1 n).
Proof.
  intros H. apply set_eq. intros i.
  rewrite elem_of_dom, H, elem_of_list_to_set, elem_of_seqZ. lia.
Qed.

(** An accepted count: the variables are set from the form, the sheet has
    one fresh row for each question, the key and the fields of the check
    panel are cleared, and the timer starts at [now]. *)
Lemma generateOMRSheet_accepts now st count :
  JS.parseInt (questionCountInput st) = Some count ->
  1 <= count <= 200 ->
  let st' := generateOMRSheet now st in
  configError st' = None /\ totalQuestions st' = count /\
  correctMarks st' = correctMarksInput st /\
  answerKey st' = ∅ /\ manualKeyInput st' = "" /\ isGraded st' = false /\
  startTime st' = now /\ timerInterval st' = true /\
  (forall i, omrSheet st' !! i =
             if bool_decide (1 <= i <= count) then Some createQuestionRow else None) /\
  SheetLaidOut st'.
Proof.
  intros Hparse Hrange. unfold generateOMRSheet. rewrite Hparse.
  apply range_test in Hrange as Htest. rewrite Htest.
  destruct st as [tq cm wm key ti stt ig qci cmi wmi mki sheet ce che sm td tti res cmo].
  cbn -[appendRows].
  assert (Hlook : forall i,
             (resetRow <$> appendRows 1 (Z.to_nat count) ∅) !! i =
             if bool_decide (1 <= i <= count) then Some createQuestionRow else None).
  { intros i. rewrite lookup_fmap, appendRows_lookup, lookup_empty.
    destruct (decide (1 <= i <= count)).
    - rewrite !bool_decide_eq_true_2 by lia. reflexivity.
    - rewrite !bool_decide_eq_false_2 by lia. reflexivity. }
  repeat split; try reflexivity; try exact Hlook.
  unfold SheetLaidOut. cbn -[appendRows]. apply dom_rows. intros i.
  rewrite Hlook. destruct (decide (1 <= i <= count)).
  - rewrite bool_decide_eq_true_2 by assumption. split; [intros _; assumption | by eexists].
  - rewrite bool_decide_eq_false_2 by assumption.
    split; [intros [r Hr]; discriminate | intros; contradiction].
Qed.

(** A refused count: only the message changes. *)
Lemma generateOMRSheet_refuses now st :
  (forall count, JS.parseInt (questionCountInput st) = Some count ->
                 count < 1 \/ 200 < count) ->
  generateOMRSheet now st = showConfigError EnterNumber1To200 st.
Proof.
  intros H. unfold generateOMRSheet.
  destruct (JS.parseInt (questionCountInput st)) as [count|]; [|reflexivity].
  destruct ((count <? 1) || (count >? 200)) eqn:Htest; [reflexivity|].
  apply range_test in Htest. specialize (H count eq_refl). lia.
Qed.

(** The decimal numeral of every count from 1 to 200 is read back by
    [parseInt]. *)
Lemma parseInt_numeral n :
  1 <= n <= 200 -> JS.parseInt (JS.numberToString n) = Some n.
Proof.
  intros Hn.
  assert (Hall : forallb (fun k => bool_decide (JS.parseInt (JS.numberToString k) = Some k))
                         (seqZ 1 200) = true) by (vm_compute; reflexivity).
  rewrite forallb_forall in Hall.
  specialize (Hall n). rewrite bool_decide_eq_true in Hall. apply Hall.
  apply list_elem_of_In, elem_of_seqZ. lia.
Qed.

(** C2, against the rule on every input outside [1..200]: the count field
    holding "1e3", one thousand, gives a sheet of one question; "200.999"
    gives 200 questions and "12abc" gives 12. *)
Lemma C2_counterexample :
  ~ CountOutsideRefused "1e3" 0 initial /\
  totalQuestions (generateOMRSheet 0 (set_questionCountInput "1e3" initial)) = 1 /\
  totalQuestions (generateOMRSheet 0 (set_questionCountInput "200.999" initial)) = 200 /\
  totalQuestions (generateOMRSheet 0 (set_questionCountInput "12abc" initial)) = 12.
Proof.
  split; [|repeat split; reflexivity].
  intros H. destruct H as (Hce & _); [|discriminate Hce].
  intros n Hn Heq.
  assert (Hall : forallb (fun k => negb (String.eqb "1e3" (JS.numberToString k)))
                         (seqZ 1 200) = true) by (vm_compute; reflexivity).
  rewrite forallb_forall in Hall.
  specialize (Hall n). rewrite <- Heq, String.eqb_refl in Hall.
  discriminate Hall. apply list_elem_of_In, elem_of_seqZ. lia.
Qed.

(** C2, amended.  The count is what [parseInt] reads from the field, not
    the field as a whole.  A count read in [1..200] is accepted: the sheet
    gets exactly that many rows, numbered from 1, each with no radio
    checked; the numeral of every integer of [1..200] is read as that
    integer, and so is every text that begins with the numeral and goes on
    with something that is not a digit.  Any other input ([parseInt] reads
    nothing, or a number below 1 or above 200) is refused with the message
    of the count field and the state is otherwise as it was: from the page
    as loaded there is still no sheet. *)
Theorem C2_generate_validates_count :
  (forall now st count,
      JS.parseInt (questionCountInput st) = Some count ->
      1 <= count <= 200 ->
      let st' := generateOMRSheet now st in
      configError st' = None /\ totalQuestions st' = count /\
      Z.of_nat (size (omrSheet st')) = count /\
      (forall i, omrSheet st' !! i =
                 if bool_decide (1 <= i <= count) then Some createQuestionRow else None) /\
      (forall i, response (omrSheet st') i = None)) /\
  (forall n, 1 <= n <= 200 -> JS.parseInt (JS.numberToString n) = Some n) /\
  (forall now st,
      (forall count, JS.parseInt (questionCountInput st) = Some count ->
                     count < 1 \/ 200 < count) ->
      generateOMRSheet now st = set_configError (Some EnterNumber1To200) st) /\
  Forall (fun s => forall now,
              let st' := generateOMRSheet now (set_questionCountInput s initial) in
              configError st' = Some EnterNumber1To200 /\
              totalQuestions st' = 0 /\ omrSheet st' = ∅ /\
              st' = set_configError (Some EnterNumber1To200) (set_questionCountInput s initial))
         ["0"; "201"; "abc"; ""; "-3"; "1000000"] /\
  (forall n rest,
      1 <= n <= 200 -> noDigitAhead rest = true ->
      JS.parseInt (JS.numberToString n ++ rest) = Some n).
Proof.
  split; [|split; [|split; [|split]]].
  - intros now st count Hparse Hrange.
    destruct (generateOMRSheet_accepts now st count Hparse Hrange)
      as (Hce & Htq & _ & _ & _ & _ & _ & _ & Hlook & Hlaid).
    cbv zeta. repeat split; try assumption.
    + rewrite <- Htq. apply SheetLaidOut_size; [assumption | lia].
    + intros i. unfold response. rewrite Hlook. case_bool_decide; reflexivity.
  - exact parseInt_numeral.
  - exact generateOMRSheet_refuses.
  - repeat constructor.
  - intros n rest Hn Hrest. apply parseInt_leading_numeral; [lia | exact Hrest].
Qed.

Lemma C2_witness :
  JS.parseInt (questionCountInput (set_questionCountInput "200" initial)) = Some 200 /\
  Z.of_nat (size (omrSheet (generateOMRSheet 0 (set_questionCountInput "200" initial)))) = 200.
Proof.
  split; [reflexivity|].
  apply (proj1 C2_generate_validates_count 0 (set_questionCountInput "200" initial) 200);
    [reflexivity | lia].
Defined.

(** ** The typed key *)

(** What [gradeSheet] sets and what it leaves alone. *)
Lemma gradeSheet_fields now st st' :
  gradeSheet now st = Some st' ->
  totalQuestions st' = totalQuestions st /\ answerKey st' = answerKey st /\
  correctMarks st' = correctMarks st /\ wrongMarks st' = wrongMarks st /\
  startTime st' = startTime st /\ manualKeyInput st' = manualKeyInput st /\
  isGraded st' = true /\ checkError st' = None /\
  timeTakenInfo st' = Some (now - startTime st) /\ timerInterval st' = false.
Proof.
  unfold gradeSheet. intros H.
  destruct (gradeRows _ _ _ _ _) as [[sheet t]|]; [|discriminate].
  cbn in H. injection H as <-.
  destruct st. repeat split; reflexivity.
Qed.

Lemma length_String c s : JS.length (String c s) = JS.length s + 1.
Proof. unfold JS.length. cbn [String.length]. lia. Qed.

Lemma length_nonneg s : 0 <= JS.length s.
Proof. unfold JS.length. lia. Qed.

(** The loop of the typed key writes the characters of the text, in
    order, at the question numbers that follow [i]. *)
Lemma fillKey_lookup s :
  forall i key q,
    fillKey i s key !! q =
    if bool_decide (i < q <= i + JS.length s)
    then (fun c => String c EmptyString) <$> String.get (Z.to_nat (q - i - 1)) s
    else key !! q.
Proof.
  induction s as [|c s IH]; intros i key q.
  - cbn [fillKey]. rewrite bool_decide_eq_false_2; [reflexivity|].
    unfold JS.length. simpl. lia.
  - cbn [fillKey]. rewrite IH, length_String.
    pose proof (length_nonneg s).
    destruct (decide (q = i + 1)) as [->|Hne].
    + rewrite bool_decide_eq_false_2 by lia.
      rewrite bool_decide_eq_true_2 by lia.
      rewrite lookup_insert_eq.
      replace (i + 1 - i - 1) with 0 by lia. reflexivity.
    + rewrite lookup_insert_ne by congruence.
      destruct (decide (i + 1 < q <= i + 1 + JS.length s)).
      * rewrite !bool_decide_eq_true_2 by lia.
        replace (Z.to_nat (q - i - 1)) with (S (Z.to_nat (q - (i + 1) - 1))) by lia.
        reflexivity.
      * rewrite !bool_decide_eq_false_2 by lia. reflexivity.
Qed.


Lemma get_lt_Some i s : Z.of_nat i < JS.length s -> is_Some (String.get i s).
Proof.
  revert i. induction s as [|a s IH]; intros i H.
  - unfold JS.length in H. simpl in H. lia.
  - destruct i as [|i]; [by eexists|]. cbn. apply IH.
    rewrite length_String in H. lia.
Qed.







(** ** Keys from tables *)

Lemma includes_elem_of l x : JS.includes l x = true <-> x ∈ l.
Proof.
  unfold JS.includes. rewrite existsb_exists. split.
  - intros (y & Hy & Heq). apply String.eqb_eq in Heq as ->. by apply list_elem_of_In.
  - intros Hx. exists x. split; [by apply list_elem_of_In | apply String.eqb_refl].
Qed.

Lemma rowAccepted_true row :
  rowAccepted row = true <->
  is_Some (rowNumber row) /\ rowAnswer row ∈ choiceLetters.
Proof.
  unfold rowAccepted. destruct (rowNumber row) as [q|].
  - rewrite includes_elem_of. split; [by split; [eexists|] | by intros [_ ?]].
  - split; [discriminate | intros [[? ?] _]; discriminate].
Qed.

Lemma excelRow_accepted acc row :
  rowAccepted row = true ->
  excelRow acc row = (storeRow (fst acc) row, snd acc + 1).
Proof.
  unfold rowAccepted, excelRow, storeRow.
  destruct (rowNumber row); [|discriminate]. by intros ->.
Qed.

Lemma excelRow_skipped acc row : rowAccepted row = false -> excelRow acc row = acc.
Proof.
  unfold rowAccepted, excelRow.
  destruct (rowNumber row); [|reflexivity]. by intros ->.
Qed.

(** The loop over the rows: the accepted rows are stored in order and
    counted; the others leave no trace. *)
Lemma fold_excelRow data :
  forall acc,
    fold_left excelRow data acc =
    (fold_left storeRow (acceptedRows data) (fst acc),
     snd acc + Z.of_nat (length (acceptedRows data))).
Proof.
  induction data as [|row data IH]; intros [key n].
  - cbn. f_equal. lia.
  - cbn [fold_left acceptedRows List.filter].
    destruct (rowAccepted row) eqn:Hrow.
    + rewrite excelRow_accepted, IH by assumption.
      cbn [fst snd fold_left length]. fold (acceptedRows data). f_equal. lia.
    + rewrite excelRow_skipped, IH by assumption. reflexivity.
Qed.

Lemma storeParsedKey_some failure key n st :
  0 < n ->
  storeParsedKey failure (key, n) st =
  set_statusMessage (Some (AnswersLoaded n))
    (set_checkError None (set_manualKeyInput "" (set_answerKey key st))).
Proof.
  intros Hn. unfold storeParsedKey. cbn [fst snd].
  destruct (Z.gtb_spec n 0); [reflexivity | lia].
Qed.

Lemma storeParsedKey_none failure key st :
  storeParsedKey failure (key, 0) st = set_checkError (Some failure) st.
Proof. reflexivity. Qed.

(** What [parseAnswerKeyFromExcel] does, by the accepted rows. *)
Lemma parseAnswerKeyFromExcel_stores data st :
  acceptedRows data <> [] ->
  parseAnswerKeyFromExcel data st =
  set_statusMessage (Some (AnswersLoaded (Z.of_nat (length (acceptedRows data)))))
    (set_checkError None
      (set_manualKeyInput ""
        (set_answerKey (fold_left storeRow (acceptedRows data) ∅) st))).
Proof.
  intros Hne. unfold parseAnswerKeyFromExcel.
  rewrite fold_excelRow. cbn [fst snd]. apply storeParsedKey_some.
  destruct (acceptedRows data); [contradiction | cbn; lia].
Qed.

Lemma parseAnswerKeyFromExcel_fails data st :
  acceptedRows data = [] ->
  parseAnswerKeyFromExcel data st = set_checkError (Some NoValidAnswersExcel) st.
Proof.
  intros Hnil. unfold parseAnswerKeyFromExcel.
  rewrite fold_excelRow, Hnil. apply storeParsedKey_none.
Qed.

(** C4, against the rule as worded: the row [1, " a "] is counted, though
    its column 1, upper-cased, is " A " and not one of the four letters. *)
Lemma C4_counterexample : ~ RowRuleAsWorded [CNumber 1; CString " a "].
Proof.
  intros [H _].
  assert (Hin : JS.toUpperCase (cellToString (cellAt [CNumber 1; CString " a "] 1))
                ∈ choiceLetters).
  { apply H. intros acc. reflexivity. }
  apply includes_elem_of in Hin. vm_compute in Hin. discriminate.
Qed.

(** C4, amended.  A row of a table is accepted exactly when [parseInt]
    reads a number from its column 0 and its column 1, as text, trimmed and
    upper-cased, is one of A, B, C, D.  An accepted row stores that letter
    under that number and is counted; any other row is skipped and the
    loop goes on.  The parsed key is what the accepted rows store, in
    order, and [parsedCount] is their number.  The parse succeeds exactly
    when a row was accepted: the key is stored and the count is shown;
    with no accepted row the state keeps its key and shows the message that
    no valid answer was found.  The rows [1, "a"], ["x", "B"], [2, "c"]
    give the key 1: A, 2: C and the count 2. *)
Theorem C4_table_rows :
  (forall row,
      rowAccepted row = true <->
      is_Some (rowNumber row) /\ rowAnswer row ∈ choiceLetters) /\
  (forall acc row q,
      rowAccepted row = true -> rowNumber row = Some q ->
      excelRow acc row = (<[q := rowAnswer row]> (fst acc), snd acc + 1)) /\
  (forall acc row, rowAccepted row = false -> excelRow acc row = acc) /\
  (forall data,
      fold_left excelRow data (∅, 0) =
      (fold_left storeRow (acceptedRows data) ∅, Z.of_nat (length (acceptedRows data)))) /\
  (forall data st,
      acceptedRows data <> [] ->
      parseAnswerKeyFromExcel data st =
      set_statusMessage (Some (AnswersLoaded (Z.of_nat (length (acceptedRows data)))))
        (set_checkError None
          (set_manualKeyInput ""
            (set_answerKey (fold_left storeRow (acceptedRows data) ∅) st)))) /\
  (forall data st,
      acceptedRows data = [] ->
      parseAnswerKeyFromExcel data st = set_checkError (Some NoValidAnswersExcel) st) /\
  fold_left excelRow sampleTable (∅, 0) = (<[1 := "A"]> (<[2 := "C"]> ∅), 2).
Proof.
  split; [exact rowAccepted_true|].
  split.
  { intros acc row q Hacc Hq. rewrite excelRow_accepted by assumption.
    unfold storeRow. by rewrite Hq. }
  split; [intros; by apply excelRow_skipped|].
  split; [intros data; by rewrite fold_excelRow|].
  split; [exact parseAnswerKeyFromExcel_stores|].
  split; [exact parseAnswerKeyFromExcel_fails|].
  vm_compute. reflexivity.
Qed.

Lemma C4_witness :
  acceptedRows sampleTable <> [] /\
  answerKey (parseAnswerKeyFromExcel sampleTable initial) = <[1 := "A"]> (<[2 := "C"]> ∅) /\
  statusMessage (parseAnswerKeyFromExcel sampleTable initial) = Some (AnswersLoaded 2).
Proof.
  assert (H : acceptedRows sampleTable <> []) by (vm_compute; discriminate).
  split; [exact H|].
  rewrite (proj1 (proj2 (proj2 (proj2 (proj2 C4_table_rows)))) sampleTable initial H).
  split; vm_compute; reflexivity.
Defined.

(** ** Keys from free text *)

(** C5, on the code at the text of the example.  The pattern is matched
    with case, so "2: b" is no match: the text "1. A 2: b 3-C 10 D" gives
    three entries, 1: A, 3: C and 10: D, and none for question 2.  The same
    text with "B" in upper case gives the four entries; a table does accept
    the lower-case letter. *)
Theorem C5_free_text_sample :
  let st' := parseAnswerKeyFromText sampleText initial in
  answerKey st' = <[1 := "A"]> (<[3 := "C"]> (<[10 := "D"]> ∅)) /\
  answerKey st' !! 2 = None /\
  statusMessage st' = Some (AnswersLoaded 3) /\
  Regex.matchAt "2: b 3-C 10 D" = None /\
  answerKey (parseAnswerKeyFromText sampleTextUpper initial)
  = <[1 := "A"]> (<[2 := "B"]> (<[3 := "C"]> (<[10 := "D"]> ∅))) /\
  rowAccepted [CNumber 2; CString "b"] = true.
Proof. cbv zeta. repeat split; vm_compute; reflexivity. Qed.

Lemma elem_of_star p s :
  forall m r, (m, r) ∈ Regex.star p s -> s = m ++ r.
Proof.
  induction s as [|c s IH]; intros m r H; cbn in H.
  - apply list_elem_of_singleton in H. by injection H as -> ->.
  - destruct (p c).
    + apply elem_of_app in H as [H|H].
      * apply list_elem_of_fmap in H as ([m' r'] & Heq & H).
        injection Heq as -> ->. change (String c s = String c (m' ++ r')). f_equal. by apply IH.
      * apply list_elem_of_singleton in H. by injection H as -> ->.
    + apply list_elem_of_singleton in H. by injection H as -> ->.
Qed.

Lemma elem_of_plus p s m r :
  (m, r) ∈ Regex.plus p s -> exists c m', m = String c m' /\ p c = true.
Proof.
  destruct s as [|c s]; cbn; [by intros ?%elem_of_nil|].
  destruct (p c) eqn:Hc; [|by intros ?%elem_of_nil].
  intros ([m' r'] & Heq & _)%list_elem_of_fmap.
  injection Heq as -> ->. by exists c, m'.
Qed.

Lemma elem_of_one p s m r :
  (m, r) ∈ Regex.one p s -> exists c, m = String c EmptyString /\ p c = true.
Proof.
  destruct s as [|c s]; cbn; [by intros ?%elem_of_nil|].
  destruct (p c) eqn:Hc; [|by intros ?%elem_of_nil].
  intros Heq%list_elem_of_singleton. injection Heq as -> ->. by exists c.
Qed.

Lemma elem_of_plus_app p s m r : (m, r) ∈ Regex.plus p s -> s = m ++ r.
Proof.
  destruct s as [|c s]; cbn; [by intros ?%elem_of_nil|].
  destruct (p c); [|by intros ?%elem_of_nil].
  intros ([m' r'] & Heq & H)%list_elem_of_fmap. injection Heq as -> ->.
  change (String c s = String c (m' ++ r')). f_equal. by apply (elem_of_star p).
Qed.

Lemma elem_of_opt_app p s m r : (m, r) ∈ Regex.opt p s -> s = m ++ r.
Proof.
  destruct s as [|c s]; cbn.
  - intros H%list_elem_of_singleton. by injection H as -> ->.
  - destruct (p c).
    + intros [H|H%list_elem_of_singleton]%elem_of_cons; by injection H as -> ->.
    + intros H%list_elem_of_singleton. by injection H as -> ->.
Qed.

Lemma elem_of_one_app p s m r : (m, r) ∈ Regex.one p s -> s = m ++ r.
Proof.
  destruct s as [|c s]; cbn; [by intros ?%elem_of_nil|].
  destruct (p c); [|by intros ?%elem_of_nil].
  intros H%list_elem_of_singleton. by injection H as -> ->.
Qed.

Lemma append_assoc (a b c : string) : (a ++ b) ++ c = a ++ (b ++ c).
Proof.
  induction a as [|x a IH]; [reflexivity|].
  change (String x ((a ++ b) ++ c) = String x (a ++ (b ++ c))). by rewrite IH.
Qed.

(** The matched text is the head of the text searched, so a match of
    length [n] moves [lastIndex] by [n]. *)
Lemma matchesAt_prefix s m :
  m ∈ Regex.matchesAt s -> exists rest, s = Regex.whole m ++ rest.
Proof.
  unfold Regex.matchesAt. intros H.
  apply list_elem_of_bind in H as ([ds r1] & H & ->%elem_of_plus_app).
  apply list_elem_of_bind in H as ([w1 r2] & H & ->%elem_of_star).
  apply list_elem_of_bind in H as ([sep r3] & H & ->%elem_of_opt_app).
  apply list_elem_of_bind in H as ([w2 r4] & H & ->%elem_of_star).
  apply list_elem_of_bind in H as ([l r5] & H & ->%elem_of_one_app).
  destruct (Regex.wordBoundary _ _); [|by apply elem_of_nil in H].
  apply list_elem_of_singleton in H as ->. exists r5. cbn [Regex.whole].
  by rewrite !append_assoc.
Qed.

(** A match has a digit at the head of group 1 and one of the letters A
    to D as group 2. *)
Lemma matchesAt_groups s m :
  m ∈ Regex.matchesAt s ->
  (exists c ds, Regex.group1 m = String c ds /\ JS.isDigit c = true) /\
  (exists c, Regex.group2 m = String c EmptyString /\ Regex.isAtoD c = true).
Proof.
  unfold Regex.matchesAt. intros H.
  apply list_elem_of_bind in H as ([ds r1] & H & Hds).
  apply list_elem_of_bind in H as ([w1 r2] & H & _).
  apply list_elem_of_bind in H as ([sep r3] & H & _).
  apply list_elem_of_bind in H as ([w2 r4] & H & _).
  apply list_elem_of_bind in H as ([l r5] & H & Hl).
  destruct (Regex.wordBoundary _ _); [|by apply elem_of_nil in H].
  apply list_elem_of_singleton in H as ->. cbn.
  apply elem_of_plus in Hds as (c & ds' & -> & Hc).
  apply elem_of_one in Hl as (c' & -> & Hc').
  split; [by exists c, ds' | by exists c'].
Qed.

Lemma scan_matches s :
  forall skip m, m ∈ Regex.scan s skip -> exists s', Regex.matchAt s' = Some m.
Proof.
  induction s as [|c s IH]; intros skip m H; cbn in H; [by apply elem_of_nil in H|].
  destruct skip as [|k]; [|by apply IH in H].
  destruct (Regex.matchAt (String c s)) as [m'|] eqn:Hm; [|by apply IH in H].
  apply elem_of_cons in H as [->|H]; [by eexists | by apply IH in H].
Qed.

Lemma execAll_groups text m :
  m ∈ Regex.execAll text ->
  (exists c ds, Regex.group1 m = String c ds /\ JS.isDigit c = true) /\
  (exists c, Regex.group2 m = String c EmptyString /\ Regex.isAtoD c = true).
Proof.
  intros (s' & Hm)%scan_matches. apply (matchesAt_groups s').
  unfold Regex.matchAt in Hm. destruct (Regex.matchesAt s'); [discriminate|].
  injection Hm as ->. by left.
Qed.

Lemma isAtoD_letter c :
  Regex.isAtoD c = true ->
  String c EmptyString ∈ choiceLetters /\
  JS.toUpperCase (String c EmptyString) = String c EmptyString.
Proof.
  intros H.
  destruct c as [[] [] [] [] [] [] [] []]; try discriminate H;
    (split; [apply includes_elem_of|]; vm_compute; reflexivity).
Qed.

Lemma digitsValue_Some s : forall a, is_Some (JS.digitsValue (Some a) s).
Proof.
  induction s as [|c s IH]; intros a; cbn; [by eexists|].
  destruct (JS.isDigit c); [apply IH | by eexists].
Qed.

(** [parseInt] reads a number from a text that starts with a digit. *)
Lemma parseInt_digit c s : JS.isDigit c = true -> is_Some (JS.parseInt (String c s)).
Proof.
  intros H.
  assert (Heq : JS.parseInt (String c s) = JS.digitsValue (Some (JS.code c - 48)) s).
  { destruct c as [[] [] [] [] [] [] [] []]; try discriminate H; reflexivity. }
  rewrite Heq. apply digitsValue_Some.
Qed.

(** So the round of the loop always stores group 2, which is already in
    upper case. *)
Lemma textMatch_stores text m acc :
  m ∈ Regex.execAll text ->
  exists q, JS.parseInt (Regex.group1 m) = Some q /\
            Regex.group2 m ∈ choiceLetters /\
            textMatch acc m = (<[q := Regex.group2 m]> (fst acc), snd acc + 1).
Proof.
  intros ((c & ds & Hg1 & Hc) & (l & Hg2 & Hl))%execAll_groups.
  destruct (parseInt_digit c ds Hc) as [q Hq].
  destruct (isAtoD_letter l Hl) as [Hin Hup].
  exists q. unfold textMatch. rewrite Hg1, Hq, Hg2, Hup. done.
Qed.

(** ** What a stored key can hold *)

Lemma ValuesAreLetters_empty : ValuesAreLetters ∅.
Proof. intros q v H. by rewrite lookup_empty in H. Qed.

Lemma ValuesAreLetters_insert key q v :
  ValuesAreLetters key -> v ∈ choiceLetters -> ValuesAreLetters (<[q := v]> key).
Proof.
  intros Hkey Hv q' v' H.
  destruct (decide (q = q')) as [->|Hne].
  - rewrite lookup_insert_eq in H. by injection H as <-.
  - rewrite lookup_insert_ne in H by assumption. by apply (Hkey q').
Qed.

Lemma fold_storeRow_letters rows :
  forall key,
    Forall (fun row => rowAccepted row = true) rows ->
    ValuesAreLetters key -> ValuesAreLetters (fold_left storeRow rows key).
Proof.
  induction rows as [|row rows IH]; intros key Hall Hkey; [exact Hkey|].
  inversion Hall as [|? ? Hrow Hrows]; subst. cbn [fold_left].
  apply IH; [assumption|].
  apply rowAccepted_true in Hrow as [[q Hq] Hin].
  unfold storeRow. rewrite Hq. by apply ValuesAreLetters_insert.
Qed.

Lemma acceptedRows_all data :
  Forall (fun row => rowAccepted row = true) (acceptedRows data).
Proof.
  apply Forall_forall. intros row Hin.
  apply list_elem_of_In, filter_In in Hin. tauto.
Qed.

Lemma fold_textMatch text ms :
  forall acc,
    (forall m, m ∈ ms -> m ∈ Regex.execAll text) ->
    ValuesAreLetters (fst acc) ->
    ValuesAreLetters (fst (fold_left textMatch ms acc)) /\
    snd (fold_left textMatch ms acc) = snd acc + Z.of_nat (length ms).
Proof.
  induction ms as [|m ms IH]; intros acc Hms Hacc.
  - cbn. split; [exact Hacc | lia].
  - cbn [fold_left length].
    destruct (textMatch_stores text m acc) as (q & _ & Hin & Heq); [apply Hms; by left|].
    destruct (IH (textMatch acc m)) as [Hval Hcount].
    { intros m' Hm'. apply Hms. by right. }
    { rewrite Heq. cbn [fst]. by apply ValuesAreLetters_insert. }
    split; [exact Hval|]. rewrite Hcount, Heq. cbn [snd]. lia.
Qed.

(** What [parseAnswerKeyFromText] does, by the matches of the pattern. *)
Lemma parseAnswerKeyFromText_spec text st :
  let parsed := fold_left textMatch (Regex.execAll text) (∅, 0) in
  ValuesAreLetters (fst parsed) /\
  snd parsed = Z.of_nat (length (Regex.execAll text)) /\
  (Regex.execAll text <> [] ->
   parseAnswerKeyFromText text st =
   set_statusMessage (Some (AnswersLoaded (snd parsed)))
     (set_checkError None (set_manualKeyInput "" (set_answerKey (fst parsed) st)))) /\
  (Regex.execAll text = [] ->
   parseAnswerKeyFromText text st = set_checkError (Some NoValidAnswersPdf) st).
Proof.
  cbv zeta.
  destruct (fold_textMatch text (Regex.execAll text) (∅, 0)) as [Hval Hcount];
    [done | exact ValuesAreLetters_empty |].
  cbn [snd] in Hcount.
  split; [exact Hval|]. split; [lia|]. unfold parseAnswerKeyFromText. split.
  - intros Hne.
    destruct (fold_left textMatch (Regex.execAll text) (∅, 0)) as [key n] eqn:Hfold.
    cbn [fst snd] in *. apply storeParsedKey_some.
    destruct (Regex.execAll text); [contradiction | cbn in Hcount; lia].
  - intros ->. reflexivity.
Qed.

(** C6, against the invariant as worded: a table row numbered 7 stores an
    entry for question 7 of a sheet of two questions; the text "0 A" stores
    an entry for question 0; the typed key "XY" stores the values X and Y. *)
Lemma C6_counterexample :
  ~ KeyWithinSheet
      (parseAnswerKeyFromExcel [[CNumber 7; CString "A"]] (sheetOf "2" None None 0)) /\
  ~ KeyWithinSheet (parseAnswerKeyFromText "0 A" (sheetOf "2" None None 0)) /\
  exists st',
    handleCheckAnswers 0 (set_manualKeyInput "XY" (sheetOf "2" None None 0)) = Some st' /\
    ~ KeyWithinSheet st'.
Proof.
  split; [|split].
  - intros H. destruct (H 7 "A") as [Hq _]; [reflexivity|]. vm_compute in Hq.
    destruct Hq as [_ Hq]. by apply Hq.
  - intros H. destruct (H 0 "A") as [Hq _]; [reflexivity|]. vm_compute in Hq.
    destruct Hq as [Hq _]. by apply Hq.
  - eexists. split; [vm_compute; reflexivity|].
    intros H. destruct (H 1 "X") as [_ Hv]; [reflexivity|].
    apply includes_elem_of in Hv. vm_compute in Hv. discriminate.
Qed.

(** C6, amended.  A key stored from the typed text has exactly the
    question numbers [1..totalQuestions].  A key stored from a table or
    from free text has only the letters A, B, C, D as values, and a parse
    that accepts nothing leaves the stored key as it was.  A table row
    that fails the test is dropped: it changes neither the key being built
    nor the count. *)
Theorem C6_stored_keys :
  (forall now st st',
      manualKey st <> "" ->
      JS.length (manualKey st) = totalQuestions st ->
      handleCheckAnswers now st = Some st' ->
      forall q, is_Some (answerKey st' !! q) <-> 1 <= q <= totalQuestions st') /\
  (forall data st,
      (acceptedRows data <> [] ->
       ValuesAreLetters (answerKey (parseAnswerKeyFromExcel data st))) /\
      (acceptedRows data = [] ->
       answerKey (parseAnswerKeyFromExcel data st) = answerKey st)) /\
  (forall text st,
      (Regex.execAll text <> [] ->
       ValuesAreLetters (answerKey (parseAnswerKeyFromText text st))) /\
      (Regex.execAll text = [] ->
       answerKey (parseAnswerKeyFromText text st) = answerKey st)) /\
  (forall acc row, rowAccepted row = false -> excelRow acc row = acc).
Proof.
  split; [|split; [|split]].
  - intros now st st' Hne Hlen Hrun q.
    unfold handleCheckAnswers in Hrun.
    destruct (String.eqb_spec (manualKey st) "") as [|_]; [contradiction|].
    rewrite Hlen, Z.eqb_refl in Hrun. cbn [negb orb] in Hrun.
    apply gradeSheet_fields in Hrun as (Htq & Hkey & _).
    rewrite Hkey, Htq.
    replace (answerKey (set_answerKey (fillKey 0 (manualKey st) ∅) st))
      with (fillKey 0 (manualKey st) ∅) by (by destruct st).
    replace (totalQuestions (set_answerKey (fillKey 0 (manualKey st) ∅) st))
      with (totalQuestions st) by (by destruct st).
    rewrite fillKey_lookup, <- Hlen.
    destruct (decide (0 < q <= 0 + JS.length (manualKey st))) as [Hq|Hq].
    + rewrite bool_decide_eq_true_2 by assumption.
      split; [lia|]. intros _.
      destruct (get_lt_Some (Z.to_nat (q - 0 - 1)) (manualKey st)) as [c Hc]; [lia|].
      rewrite Hc. by eexists.
    + rewrite bool_decide_eq_false_2 by assumption. rewrite lookup_empty.
      split; [intros [? ?]; discriminate | lia].
  - intros data st. unfold parseAnswerKeyFromExcel. rewrite fold_excelRow.
    cbn [fst snd]. split.
    + intros Hne. rewrite storeParsedKey_some
        by (destruct (acceptedRows data); [contradiction | cbn; lia]).
      replace (answerKey _) with (fold_left storeRow (acceptedRows data) ∅)
        by (by destruct st).
      apply fold_storeRow_letters;
        [apply acceptedRows_all | exact ValuesAreLetters_empty].
    + intros ->. cbn. by destruct st.
  - intros text st.
    destruct (parseAnswerKeyFromText_spec text st) as (Hval & _ & Hsome & Hnone).
    split.
    + intros Hne. rewrite (Hsome Hne).
      replace (answerKey _)
        with (fst (fold_left textMatch (Regex.execAll text) (∅, 0)))
        by (by destruct st).
      exact Hval.
    + intros Hnil. rewrite (Hnone Hnil). by destruct st.
  - intros acc row. apply excelRow_skipped.
Qed.

Lemma C6_witness :
  exists st',
    handleCheckAnswers 0 (set_manualKeyInput "XY" (sheetOf "2" None None 0)) = Some st' /\
    (is_Some (answerKey st' !! 2) <-> 1 <= 2 <= totalQuestions st').
Proof.
  eexists. split; [vm_compute; reflexivity|].
  apply (proj1 C6_stored_keys 0 (set_manualKeyInput "XY" (sheetOf "2" None None 0))).
  - vm_compute. discriminate.
  - vm_compute. reflexivity.
  - vm_compute. reflexivity.
Defined.

(** ** The marking scheme *)

Lemma generateOMRSheet_wrongMarks now st count :
  JS.parseInt (questionCountInput st) = Some count ->
  1 <= count <= 200 ->
  wrongMarks (generateOMRSheet now st) =
  match wrongMarksInput st with
  | Some w => if PrimFloat.ltb 0 w then Some (PrimFloat.opp w) else Some w
  | None => None
  end.
Proof.
  intros Hparse Hrange. unfold generateOMRSheet. rewrite Hparse.
  apply range_test in Hrange as ->.
  destruct st as [tq cm wm key ti stt ig qci cmi wmi mki sheet ce che sm td tti res cmo].
  cbn -[appendRows]. destruct wmi as [w|]; [|reflexivity].
  destruct (PrimFloat.ltb 0 w); reflexivity.
Qed.

Lemma gradeSheet_results now st st' :
  gradeSheet now st = Some st' ->
  exists r,
    results st' = Some r /\
    score r = scoreLine st (mkTally (correctCount r) (incorrectCount r) (unansweredCount r)).
Proof.
  unfold gradeSheet. intros H.
  destruct (gradeRows _ _ _ _ _) as [[sheet t]|]; [|discriminate].
  cbn in H. injection H as <-.
  destruct st. eexists. split; reflexivity.
Qed.

(** C7. With [correctMarks] unset the score line is the raw
    [correct / totalQuestions] and no marks are computed.  A positive
    [wrongMarks] typed in the form is stored as its negative when the
    sheet is generated; grading reads the stored value as it is, in
    [incorrect * (wrongMarks || 0)], and leaves it as it is.  With the
    form fields 2 and 1 the stored penalty is -1 and the sample scores 1
    out of 6. *)
Theorem C7_scheme_and_penalty :
  (forall now st st',
      correctMarks st = None ->
      gradeSheet now st = Some st' ->
      exists r, results st' = Some r /\
                score r = RawCount (correctCount r) (totalQuestions st)) /\
  (forall now st count,
      JS.parseInt (questionCountInput st) = Some count ->
      1 <= count <= 200 ->
      correctMarksInput st = None ->
      correctMarks (generateOMRSheet now st) = None) /\
  (forall now st count w,
      JS.parseInt (questionCountInput st) = Some count ->
      1 <= count <= 200 ->
      wrongMarksInput st = Some w ->
      PrimFloat.ltb 0 w = true ->
      wrongMarks (generateOMRSheet now st) = Some (PrimFloat.opp w)) /\
  (forall now st st' cm,
      correctMarks st = Some cm ->
      gradeSheet now st = Some st' ->
      wrongMarks st' = wrongMarks st /\
      exists r,
        results st' = Some r /\
        score r =
          Marks (PrimFloat.add
                   (PrimFloat.mul (JS.number (correctCount r)) cm)
                   (PrimFloat.mul (JS.number (incorrectCount r))
                                  (JS.orZero (wrongMarks st))))
                (PrimFloat.mul (JS.number (totalQuestions st)) cm)) /\
  wrongMarks (sheetOf "3" (Some 2%float) (Some 1%float) 0) = Some (-1)%float /\
  (gradeSheet 60000
     (set_answerKey (<[1 := "A"]> (<[2 := "B"]> (<[3 := "C"]> ∅)))
       (clickRadio 2 OptC (clickRadio 1 OptA
         (sheetOf "3" (Some 2%float) (Some 1%float) 0)))) ≫= results)
  = Some (mkResults (Marks 1%float 6%float) 1 1 1) /\
  (gradeSheet 60000
     (set_answerKey (<[1 := "A"]> (<[2 := "B"]> (<[3 := "C"]> ∅)))
       (clickRadio 2 OptC (clickRadio 1 OptA (sheetOf "3" None None 0)))) ≫= results)
  = Some (mkResults (RawCount 1 3) 1 1 1).
Proof.
  split; [|split; [|split; [|split; [|repeat split; vm_compute; reflexivity]]]].
  - intros now st st' Hcm Hrun.
    destruct (gradeSheet_results now st st' Hrun) as (r & Hres & Hscore).
    exists r. split; [exact Hres|]. rewrite Hscore. unfold scoreLine. by rewrite Hcm.
  - intros now st count Hparse Hrange Hcm.
    destruct (generateOMRSheet_accepts now st count Hparse Hrange) as (_ & _ & -> & _).
    exact Hcm.
  - intros now st count w Hparse Hrange Hwm Hpos.
    rewrite (generateOMRSheet_wrongMarks now st count Hparse Hrange), Hwm, Hpos.
    reflexivity.
  - intros now st st' cm Hcm Hrun.
    destruct (gradeSheet_results now st st' Hrun) as (r & Hres & Hscore).
    apply gradeSheet_fields in Hrun as (_ & _ & _ & Hwm & _).
    split; [exact Hwm|]. exists r. split; [exact Hres|].
    rewrite Hscore. unfold scoreLine. by rewrite Hcm.
Qed.

Lemma C7_witness :
  wrongMarks
    (generateOMRSheet 0
       (set_wrongMarksInput (Some 0.5%float) (set_questionCountInput "10" initial)))
  = Some (-0.5)%float.
Proof.
  apply (proj1 (proj2 (proj2 C7_scheme_and_penalty)) 0
           (set_wrongMarksInput (Some 0.5%float) (set_questionCountInput "10" initial))
           10 0.5%float);
    [reflexivity | lia | reflexivity | reflexivity].
Defined.

(** ** The timer *)

Lemma storeParsedKey_startTime failure parsed st :
  startTime (storeParsedKey failure parsed st) = startTime st.
Proof. unfold storeParsedKey. destruct st. by destruct (snd parsed >? 0). Qed.

Lemma handleCheckAnswers_startTime now st st' :
  handleCheckAnswers now st = Some st' -> startTime st' = startTime st.
Proof.
  unfold handleCheckAnswers. intros H.
  repeat case_match; try (injection H as <-; by destruct st).
  - apply gradeSheet_fields in H as (_ & _ & _ & _ & -> & _). by destruct st.
  - by apply gradeSheet_fields in H as (_ & _ & _ & _ & -> & _).
Qed.

(** Only a generated sheet starts the timer. *)
Lemma step_startTime e st st' :
  isGenerate e = false -> step e st = Some st' -> startTime st' = startTime st.
Proof.
  intros He H. destruct e; try discriminate He; unfold step in H;
    try (injection H as <-);
    first [ by destruct st
          | by eapply handleCheckAnswers_startTime
          | apply storeParsedKey_startTime
          | unfold clickRadio, clickClear, clearSelection, tick;
            destruct st; cbn; by repeat case_match ].
Qed.

Lemma run_startTime es :
  forall st st',
    forallb (fun e => negb (isGenerate e)) es = true ->
    run es st = Some st' -> startTime st' = startTime st.
Proof.
  induction es as [|e es IH]; intros st st' Hes H; cbn in H.
  - by injection H as <-.
  - cbn in Hes. apply andb_true_iff in Hes as [He Hes].
    apply negb_true_iff in He.
    destruct (step e st) as [st1|] eqn:Hstep; [|discriminate]. cbn in H.
    rewrite (IH st1 st' Hes H). by apply (step_startTime e).
Qed.

(** C8, against the claim: on the page as loaded, where the timer was
    never started, [stopTimer] at clock reading 90000 shows 90000
    milliseconds, not zero; the handlers reach it through the check
    button and the confirmation. *)
Lemma C8_counterexample :
  ~ (timeTakenInfo (stopTimer 90000 initial) = Some 0) /\
  (timeTakenInfo <$> run [CheckAnswers 90000; ConfirmYes 90000] initial)
  = Some (Some 90000).
Proof. split; [discriminate | reflexivity]. Qed.

(** C8, amended.  [stopTimer] shows the clock reading minus [startTime].
    After any events from the page as loaded among which no sheet was
    generated, the timer was never started, [startTime] is still 0, and
    [stopTimer] shows the clock reading itself.  *)
Theorem C8_stop_without_start :
  (forall now st, timeTakenInfo (stopTimer now st) = Some (now - startTime st)) /\
  (forall es st now,
      forallb (fun e => negb (isGenerate e)) es = true ->
      run es initial = Some st ->
      startTime st = 0 /\ timeTakenInfo (stopTimer now st) = Some now).
Proof.
  assert (Hstop : forall now st, timeTakenInfo (stopTimer now st) = Some (now - startTime st))
    by (intros now st; by destruct st).
  split; [exact Hstop|].
  intros es st now Hes Hrun.
  pose proof (run_startTime es initial st Hes Hrun) as Hst. cbn in Hst.
  split; [exact Hst|]. rewrite Hstop, Hst. f_equal. lia.
Qed.

Lemma C8_witness :
  exists st,
    run [TypeManualKey "A"; CheckAnswers 5; ResetSheet] initial = Some st /\
    timeTakenInfo (stopTimer 90000 st) = Some 90000.
Proof.
  eexists. split; [reflexivity|].
  apply (proj2 C8_stop_without_start [TypeManualKey "A"; CheckAnswers 5; ResetSheet]);
    reflexivity.
Defined.

(** ** Two sources of a key *)





(** ** After grading *)

(** The loop stops early only on a missing row. *)
Lemma gradeRows_Some_rows key n :
  forall i sheet t sheet' t',
    gradeRows key i n sheet t = Some (sheet', t') ->
    forall j, i <= j < i + Z.of_nat n -> is_Some (sheet !! j).
Proof.
  induction n as [|n IH]; intros i sheet t sheet' t' H j Hj; [lia|].
  cbn [gradeRows] in H.
  destruct (sheet !! i) as [r|] eqn:Hr; [|discriminate].
  rewrite gradeRow_spec in H.
  destruct (decide (j = i)) as [->|Hne]; [by eexists|].
  apply IH with (j := j) in H; [|lia].
  by rewrite lookup_insert_ne in H by congruence.
Qed.

Lemma gradeRows_inv key n i sheet t sheet' t' :
  gradeRows key i n sheet t = Some (sheet', t') ->
  (forall j, sheet' !! j =
             if bool_decide (i <= j < i + Z.of_nat n)
             then gradedRow (key !! j) <$> sheet !! j
             else sheet !! j) /\
  correct t' = correct t + countVerdict Correct (verdictAt key sheet) (seqZ i (Z.of_nat n)) /\
  incorrect t' = incorrect t + countVerdict Incorrect (verdictAt key sheet) (seqZ i (Z.of_nat n)) /\
  unanswered t' = unanswered t + countVerdict Unanswered (verdictAt key sheet) (seqZ i (Z.of_nat n)).
Proof.
  intros H.
  destruct (gradeRows_spec key n i sheet t) as (sheet2 & t2 & Hrun & Hspec).
  { by apply (gradeRows_Some_rows key n i sheet t sheet' t'). }
  rewrite H in Hrun. by injection Hrun as <- <-.
Qed.




(** The rows [gradeSheet] leaves behind. *)
Lemma gradeSheet_rows now st st' :
  gradeSheet now st = Some st' ->
  forall j, omrSheet st' !! j =
            if bool_decide (1 <= j <= totalQuestions st)
            then gradedRow (answerKey st !! j) <$> omrSheet st !! j
            else omrSheet st !! j.
Proof.
  unfold gradeSheet. intros H.
  destruct (gradeRows _ _ _ _ _) as [[sheet' t']|] eqn:Hrows; [|discriminate].
  cbn in H. injection H as <-.
  apply gradeRows_inv in Hrows as (Hlook & _).
  destruct st as [tq cm wm key ti stt ig qci cmi wmi mki sheet ce che sm td tti res cmo].
  cbn in *. intros j. rewrite Hlook.
  destruct (decide (1 <= j <= tq)).
  - rewrite !bool_decide_eq_true_2 by lia. reflexivity.
  - rewrite !bool_decide_eq_false_2 by lia. reflexivity.
Qed.




Lemma storeParsedKey_omrSheet failure parsed st :
  omrSheet (storeParsedKey failure parsed st) = omrSheet st.
Proof. unfold storeParsedKey. destruct st. by destruct (snd parsed >? 0). Qed.




Lemma handleConfirmProceed_keeps_frozen now st :
  Frozen (handleConfirmProceed now st) /\
  forall i, response (omrSheet (handleConfirmProceed now st)) i = response (omrSheet st) i.
Proof.
  assert (Hsheet : omrSheet (handleConfirmProceed now st) = lockRow <$> omrSheet st)
    by (by destruct st).
  split.
  - intros i r. rewrite Hsheet, lookup_fmap.
    destruct (omrSheet st !! i); [|discriminate]. cbn. by intros [= <-].
  - intros i. unfold response. rewrite Hsheet, lookup_fmap.
    by destruct (omrSheet st !! i).
Qed.




Lemma set_answerKey_id k st : answerKey st = k -> set_answerKey k st = st.
Proof. destruct st. cbn. by intros ->. Qed.





(** ** Sessions from the page as loaded *)

Lemma SheetLaidOut_same st st' :
  omrSheet st' = omrSheet st -> totalQuestions st' = totalQuestions st ->
  SheetLaidOut st -> SheetLaidOut st'.
Proof. unfold SheetLaidOut. by intros -> ->. Qed.











(** X10. The three counters of a grading add up to the number of
    questions. *)
Theorem gradeSheet_counts_all now st st' r :
  SheetLaidOut st -> gradeSheet now st = Some st' -> results st' = Some r ->
  correctCount r + incorrectCount r + unansweredCount r = Z.max 0 (totalQuestions st).
Proof.
  intros Hlaid Hrun Hres.
  destruct (gradeSheet_spec now st Hlaid) as (st2 & r2 & Hrun2 & Hres2 & _ & Hc & Hi & Hu & _).
  rewrite Hrun in Hrun2. injection Hrun2 as <-.
  rewrite Hres in Hres2. injection Hres2 as <-.
  rewrite Hc, Hi, Hu, countVerdict_total, length_seqZ. lia.
Qed.

(** ** The built-ins on sample texts *)

Example trim_sample : JS.trim "  ab c  " = "ab c" /\ JS.trim "   " = "".
Proof. split; reflexivity. Qed.

Example toUpperCase_sample : JS.toUpperCase "a1z{B" = "A1Z{B".
Proof. reflexivity. Qed.

Example parseInt_sample :
  JS.parseInt " 12abc" = Some 12 /\ JS.parseInt "-7" = Some (-7) /\
  JS.parseInt "x" = None /\ JS.parseInt "" = None /\ JS.parseInt "3.9" = Some 3 /\
  JS.parseInt "undefined" = None /\ JS.parseInt "+" = None.
Proof. repeat split; reflexivity. Qed.

Example execAll_sample :
  Regex.execAll "1A2B 12  :  C x 7D. 5 - A_ 6.Dd 007 . B" =
  [Regex.mkMatch "2B" "2" "B"; Regex.mkMatch "12  :  C" "12" "C";
   Regex.mkMatch "7D" "7" "D"; Regex.mkMatch "007 . B" "007" "B"].
Proof. vm_compute. reflexivity. Qed.

(** * Further properties of the script *)

(** ** The clock display *)

Lemma length_append (a b : string) :
  String.length (a ++ b) = (String.length a + String.length b)%nat.
Proof.
  induction a as [|x a IH]; [reflexivity|].
  change (S (String.length (a ++ b)) = S (String.length a + String.length b)).
  by rewrite IH.
Qed.

Lemma length_repeat c k : String.length (string_of_list_ascii (repeat c k)) = k.
Proof. induction k as [|k IH]; [reflexivity|]. cbn. by rewrite IH. Qed.

Lemma padStart_length n c s :
  String.length (padStart n c s) = Nat.max n (String.length s).
Proof. unfold padStart. rewrite length_append, length_repeat. lia. Qed.

(** Padding a numeral with zeros does not change the number read. *)
Lemma parseInt_padStart n :
  0 <= n -> JS.parseInt (padStart 2 "0" (JS.numberToString n)) = Some n.
Proof.
  intros Hn. destruct (numberToString_nonneg n Hn) as (c & s & -> & Hc & Hv).
  destruct s as [|c' s].
  - change (padStart 2 "0" (String c EmptyString)) with (String "0" (String c EmptyString)).
    rewrite parseInt_digits by reflexivity.
    cbn [JS.digitsValue] in *. change (JS.isDigit "0") with true.
    rewrite Hc in *. exact Hv.
  - change (padStart 2 "0" (String c (String c' s))) with (String c (String c' s)).
    by rewrite parseInt_digits.
Qed.

Lemma two_digits_below_100 n :
  0 <= n < 100 -> String.length (padStart 2 "0" (JS.numberToString n)) = 2%nat.
Proof.
  intros Hn.
  assert (Hall : forallb (fun k => Nat.eqb (String.length (padStart 2 "0" (JS.numberToString k))) 2)
                         (seqZ 0 100) = true) by (vm_compute; reflexivity).
  rewrite forallb_forall in Hall. apply Nat.eqb_eq, Hall.
  apply list_elem_of_In, elem_of_seqZ. lia.
Qed.

(** X1. For an elapsed time of [ms >= 0] milliseconds, [formatTime]
    prints the minutes, a colon and the seconds: the seconds are exactly
    two digits, the minutes at least two (exactly two below 100 minutes),
    and read back as numbers they are [ms / 60000] whole minutes and
    [(ms / 1000) mod 60] seconds, so the text tells the elapsed whole
    seconds. *)
Theorem formatTime_minutes_seconds ms :
  0 <= ms ->
  exists mm ss,
    formatTime ms = mm ++ ":" ++ ss /\
    String.length ss = 2%nat /\ (2 <= String.length mm)%nat /\
    (ms < 6000000 -> String.length mm = 2%nat) /\
    JS.parseInt mm = Some (ms / 60000) /\
    JS.parseInt ss = Some ((ms / 1000) mod 60) /\
    60 * (ms / 60000) + (ms / 1000) mod 60 = ms / 1000.
Proof.
  intros Hms.
  assert (Hsec : 0 <= ms / 1000) by (apply Z.div_pos; lia).
  assert (Hmin : ms / 1000 / 60 = ms / 60000) by (rewrite Z.div_div; [reflexivity | lia | lia]).
  assert (Hrem : Z.rem (ms / 1000) 60 = (ms / 1000) mod 60) by (apply Z.rem_mod_nonneg; lia).
  pose proof (Z.mod_pos_bound (ms / 1000) 60 ltac:(lia)) as Hbound.
  exists (padStart 2 "0" (JS.numberToString (ms / 60000))),
         (padStart 2 "0" (JS.numberToString ((ms / 1000) mod 60))).
  split; [unfold formatTime; cbv zeta; by rewrite Hmin, Hrem|].
  split; [apply two_digits_below_100; lia|].
  split; [rewrite padStart_length; lia|].
  split.
  { intros Hlt. apply two_digits_below_100.
    split; [apply Z.div_pos; lia | apply Z.div_lt_upper_bound; lia]. }
  split; [apply parseInt_padStart, Z.div_pos; lia|].
  split; [apply parseInt_padStart; lia|].
  rewrite <- Hmin. pose proof (Z.div_mod (ms / 1000) 60 ltac:(lia)). lia.
Qed.

Lemma formatTime_witness :
  0 <= 754321 /\
  exists mm ss,
    formatTime 754321 = mm ++ ":" ++ ss /\
    JS.parseInt mm = Some 12 /\ JS.parseInt ss = Some 34.
Proof.
  split; [lia|].
  destruct (formatTime_minutes_seconds 754321 ltac:(lia))
    as (mm & ss & Heq & _ & _ & _ & Hmm & Hss & _).
  exists mm, ss. split; [exact Heq|]. split; [exact Hmm | exact Hss].
Defined.

(** ** What holds in every state of a session *)



(** The three ways [handleCheckAnswers] ends: the sheet is graded with
    the stored or the typed key (and then there is at least one
    question), a key is refused with a message, or the confirmation is
    asked for. *)
Lemma handleCheckAnswers_cases now st st' :
  handleCheckAnswers now st = Some st' ->
  (exists key, gradeSheet now (set_answerKey key st) = Some st' /\
               1 <= totalQuestions st) \/
  (exists m, st' = showCheckError m st) \/
  st' = set_confirmModal true st.
Proof.
  unfold handleCheckAnswers. intros H.
  destruct (negb (String.eqb (manualKey st) "")) eqn:Hmk; cbn [orb] in H.
  - destruct (negb (JS.length (manualKey st) =? totalQuestions st)) eqn:Hlen.
    + injection H as <-. right. left. by eexists.
    + left. eexists. split; [exact H|].
      apply negb_false_iff, Z.eqb_eq in Hlen. rewrite <- Hlen.
      apply negb_true_iff, String.eqb_neq in Hmk.
      destruct (manualKey st); [contradiction|].
      rewrite length_String. pose proof (length_nonneg s). lia.
  - destruct (keyCount st >? 0) eqn:Hcount.
    + destruct (negb (keyCount st =? totalQuestions st)) eqn:Hlen.
      * injection H as <-. right. left. by eexists.
      * left. exists (answerKey st).
        rewrite set_answerKey_id by reflexivity. split; [exact H|].
        apply negb_false_iff, Z.eqb_eq in Hlen. rewrite <- Hlen.
        apply Z.gtb_lt in Hcount. lia.
    + injection H as <-. by right; right.
Qed.











(** ** Keys written out and read back *)

Lemma value_letter l :
  JS.toUpperCase (JS.trim (value l)) = value l /\ JS.toUpperCase (value l) = value l /\
  value l ∈ choiceLetters.
Proof.
  destruct l; (split; [reflexivity|]; split; [reflexivity|]);
    apply includes_elem_of; reflexivity.
Qed.

Lemma fold_entries_other entries n :
  forall key : gmap Z string,
    n ∉ map fst entries ->
    fold_left addEntry entries key !! n = key !! n.
Proof.
  induction entries as [|e entries IH]; intros key Hn; [reflexivity|].
  cbn [fold_left]. cbn [map] in Hn. apply not_elem_of_cons in Hn as [Hne Hn].
  rewrite IH by assumption. unfold addEntry. by rewrite lookup_insert_ne.
Qed.

(** With one entry for each question number, the key spelled by the
    entries holds every one of them. *)
Lemma fold_entries_lookup entries n l :
  forall key : gmap Z string,
    NoDup (map fst entries) -> (n, l) ∈ entries ->
    fold_left addEntry entries key !! n
    = Some (value l).
Proof.
  induction entries as [|e entries IH]; intros key Hnd Hin; [by apply elem_of_nil in Hin|].
  cbn [map] in Hnd. apply NoDup_cons in Hnd as [Hfresh Hnd]. cbn [fold_left].
  apply elem_of_cons in Hin as [<-|Hin].
  - rewrite fold_entries_other by assumption. unfold addEntry. cbn [fst snd]. by rewrite lookup_insert_eq.
  - by apply IH.
Qed.

Lemma rowNumber_entry n s : rowNumber [CNumber n; CString s] = Some n.
Proof. apply parseInt_numberToString. Qed.

Lemma rowAnswer_entry n s : rowAnswer [CNumber n; CString s] = JS.toUpperCase (JS.trim s).
Proof. reflexivity. Qed.

Lemma tableOfEntries_accepted entries :
  acceptedRows (tableOfEntries entries) = tableOfEntries entries.
Proof.
  induction entries as [|[n l] entries IH]; [reflexivity|].
  cbn [tableOfEntries map acceptedRows List.filter].
  assert (Hrow : rowAccepted [CNumber n; CString (value l)] = true).
  { apply rowAccepted_true. rewrite rowNumber_entry, rowAnswer_entry.
    destruct (value_letter l) as (-> & _ & Hin). split; [by eexists | exact Hin]. }
  cbn [fst snd]. rewrite Hrow. f_equal. exact IH.
Qed.

Lemma tableOfEntries_stored entries :
  forall key,
    fold_left storeRow (tableOfEntries entries) key
    = fold_left addEntry entries key.
Proof.
  induction entries as [|[n l] entries IH]; intros key; [reflexivity|].
  cbn [tableOfEntries map fold_left fst snd]. rewrite <- IH. f_equal.
  unfold storeRow. rewrite rowNumber_entry, rowAnswer_entry.
  by destruct (value_letter l) as (-> & _).
Qed.

(** X5. A key written as a table, one row [n, letter] for each entry, is
    read back as written when every [n] is an integer that a number holds
    exactly (of magnitude below 2^53), negative ones and zero included:
    every row is accepted, the stored key is the one the entries spell (a
    later row replacing an earlier one for the same number), the count
    shown is the number of rows, and the manual key field is emptied.
    With one row for each number, the key has as many entries as rows and
    holds each. *)
Theorem table_round_trip entries st :
  Forall (fun e => safeInteger (fst e)) entries ->
  entries <> [] ->
  parseAnswerKeyFromExcel (tableOfEntries entries) st
  = set_statusMessage (Some (AnswersLoaded (Z.of_nat (length entries))))
      (set_checkError None
        (set_manualKeyInput "" (set_answerKey (keyOfEntries entries) st))) /\
  (NoDup (map fst entries) ->
   size (keyOfEntries entries) = length entries /\
   forall n l, (n, l) ∈ entries -> keyOfEntries entries !! n = Some (value l)).
Proof.
  intros _ Hne. split.
  - rewrite parseAnswerKeyFromExcel_stores.
    + rewrite tableOfEntries_accepted, tableOfEntries_stored.
      unfold tableOfEntries. by rewrite length_map.
    + rewrite tableOfEntries_accepted. by destruct entries.
  - intros Hnd. split; [|intros n l; by apply fold_entries_lookup].
    rewrite <- size_dom.
    assert (Hdom : dom (keyOfEntries entries) = list_to_set (map fst entries)).
    { apply set_eq. intros n. rewrite elem_of_dom, elem_of_list_to_set. split.
      - intros [v Hv]. destruct (decide (n ∈ map fst entries)) as [|Hn]; [assumption|].
        unfold keyOfEntries in Hv. rewrite fold_entries_other in Hv by assumption.
        by rewrite lookup_empty in Hv.
      - intros Hin. apply list_elem_of_fmap in Hin as ([n' l] & -> & Hin).
        unfold keyOfEntries. erewrite fold_entries_lookup; [by eexists | exact Hnd | exact Hin]. }
    rewrite Hdom, size_list_to_set by assumption. by rewrite length_map.
Qed.

Lemma table_round_trip_witness :
  answerKey (parseAnswerKeyFromExcel (tableOfEntries [(2, OptC); (-1, OptA); (2, OptD)]) initial)
  = <[2 := "D"]> (<[-1 := "A"]> ∅).
Proof.
  assert (Hsafe : Forall (fun e : Z * Choice => safeInteger (fst e))
                         [(2, OptC); (-1, OptA); (2, OptD)]).
  { repeat (constructor; [unfold safeInteger; cbn [fst]; lia|]). constructor. }
  rewrite (proj1 (table_round_trip [(2, OptC); (-1, OptA); (2, OptD)] initial
                    Hsafe ltac:(discriminate))).
  vm_compute. reflexivity.
Defined.

Lemma star_digits ds c r :
  allDigits ds = true -> JS.isDigit c = false ->
  exists l, Regex.star JS.isDigit (ds ++ String c r) = (ds, String c r) :: l.
Proof.
  intros Hds Hc. induction ds as [|d ds IH].
  - exists []. change (EmptyString ++ String c r) with (String c r).
    cbn [Regex.star]. by rewrite Hc.
  - cbn [allDigits] in Hds. apply andb_true_iff in Hds as [Hd Hds].
    destruct (IH Hds) as [l Hl].
    change (String d ds ++ String c r) with (String d (ds ++ String c r)).
    cbn [Regex.star]. rewrite Hd, Hl. cbn [map]. by eexists.
Qed.

Lemma plus_digits d ds c r :
  allDigits (String d ds) = true -> JS.isDigit c = false ->
  exists l, Regex.plus JS.isDigit (String d ds ++ String c r)
            = (String d ds, String c r) :: l.
Proof.
  intros Hds Hc. cbn [allDigits] in Hds. apply andb_true_iff in Hds as [Hd Hds].
  destruct (star_digits ds c r Hds Hc) as [l Hl].
  change (String d ds ++ String c r) with (String d (ds ++ String c r)).
  cbn [Regex.plus]. rewrite Hd, Hl. cbn [map]. by eexists.
Qed.

(** At the head of the text of an entry the pattern matches the number,
    the period, the blank and the letter. *)
Lemma matchAt_entry n l rest :
  0 <= n ->
  Regex.matchAt (entryText (n, l) ++ rest) = Some (entryMatch (n, l)).
Proof.
  intros Hn. destruct (numberToString_digits n Hn) as (d & ds & Hnum & Hds).
  unfold entryText, entryMatch. cbn [fst snd]. rewrite Hnum.
  rewrite !append_assoc.
  change (String d ds ++ ". " ++ value l ++ " " ++ rest)
    with (String d ds ++ String "." (String " " (value l ++ String " " rest))).
  destruct (plus_digits d ds "." (String " " (value l ++ String " " rest)) Hds eq_refl)
    as [l0 Hl0].
  unfold Regex.matchAt, Regex.matchesAt. rewrite Hl0. by destruct l.
Qed.

Lemma scan_skip a rest : Regex.scan (a ++ rest) (String.length a) = Regex.scan rest O.
Proof.
  induction a as [|c a IH]; [reflexivity|].
  change (String c a ++ rest) with (String c (a ++ rest)).
  cbn [String.length Regex.scan]. exact IH.
Qed.

(** After a match the search goes on behind it. *)
Lemma scan_match w rest m :
  w <> "" -> Regex.matchAt (w ++ rest) = Some m -> Regex.whole m = w ->
  Regex.scan (w ++ rest) O = m :: Regex.scan rest O.
Proof.
  intros Hw Hm Hwhole. destruct w as [|c w]; [contradiction|].
  change (String c w ++ rest) with (String c (w ++ rest)) in *.
  cbn [Regex.scan]. rewrite Hm, Hwhole. cbn [String.length pred].
  f_equal. apply scan_skip.
Qed.

(** No match starts at a character that is not a digit. *)
Lemma scan_no_digit c rest :
  JS.isDigit c = false -> Regex.scan (String c rest) O = Regex.scan rest O.
Proof.
  intros Hc. cbn [Regex.scan].
  assert (Hnone : Regex.matchAt (String c rest) = None).
  { unfold Regex.matchAt, Regex.matchesAt. cbn [Regex.plus]. by rewrite Hc. }
  by rewrite Hnone.
Qed.

Lemma scan_entry n l rest :
  0 <= n ->
  Regex.scan (entryText (n, l) ++ rest) O = entryMatch (n, l) :: Regex.scan rest O.
Proof.
  intros Hn.
  assert (Hsplit : entryText (n, l) ++ rest
                   = Regex.whole (entryMatch (n, l)) ++ String " " rest).
  { unfold entryText, entryMatch. cbn [Regex.whole fst snd]. by rewrite !append_assoc. }
  pose proof (matchAt_entry n l rest Hn) as Hm. rewrite Hsplit in *.
  assert (Hw : Regex.whole (entryMatch (n, l)) <> "").
  { destruct (numberToString_digits n Hn) as (d & ds & Hnum & _).
    cbn [entryMatch Regex.whole fst]. rewrite Hnum. discriminate. }
  rewrite (scan_match _ _ _ Hw Hm eq_refl). by rewrite scan_no_digit.
Qed.

Lemma execAll_entries entries rest :
  Forall (fun e => 0 <= fst e) entries ->
  Regex.scan (entriesText entries ++ rest) O
  = (map entryMatch entries ++ Regex.scan rest O)%list.
Proof.
  induction 1 as [|[n l] entries Hn _ IH]; [reflexivity|].
  cbn [entriesText fold_right map]. fold (entriesText entries).
  rewrite append_assoc, scan_entry by exact Hn. by rewrite IH.
Qed.

Lemma execAll_pages pages :
  Forall (Forall (fun e => 0 <= fst e)) pages ->
  Regex.execAll (pagesText pages) = map entryMatch (concat pages).
Proof.
  unfold Regex.execAll. induction 1 as [|es pages Hes _ IH]; [reflexivity|].
  cbn [pagesText fold_right concat]. fold (pagesText pages).
  rewrite execAll_entries by exact Hes.
  unfold lineFeed. change (String (ascii_of_nat 10) "" ++ pagesText pages)
    with (String (ascii_of_nat 10) (pagesText pages)).
  rewrite scan_no_digit by reflexivity. rewrite IH. by rewrite map_app.
Qed.

Lemma fold_addItem entries :
  forall acc, fold_left addItem (itemsOfEntries entries) acc = acc ++ entriesText entries.
Proof.
  induction entries as [|[n l] entries IH]; intros acc.
  - cbn. clear. induction acc as [|c acc IH]; [reflexivity|].
    change (String c acc = String c (acc ++ "")). by rewrite <- IH.
  - cbn [itemsOfEntries flat_map app fold_left entriesText fold_right fst snd].
    fold (itemsOfEntries entries). fold (entriesText entries).
    rewrite IH. unfold addItem, entryText. cbn [fst snd]. by rewrite !append_assoc.
Qed.

Lemma fold_addPage pages :
  forall acc,
    fold_left addPage (map itemsOfEntries pages) acc = acc ++ pagesText pages.
Proof.
  induction pages as [|es pages IH]; intros acc.
  - cbn. clear. induction acc as [|c acc IH]; [reflexivity|].
    change (String c acc = String c (acc ++ "")). by rewrite <- IH.
  - cbn [map fold_left pagesText fold_right]. fold (pagesText pages).
    rewrite IH. unfold addPage. rewrite fold_addItem. by rewrite !append_assoc.
Qed.

Lemma fold_textMatch_entries entries :
  Forall (fun e => 0 <= fst e) entries ->
  forall acc,
    fold_left textMatch (map entryMatch entries) acc
    = (fold_left addEntry entries (fst acc), snd acc + Z.of_nat (length entries)).
Proof.
  induction 1 as [|[n l] entries Hn _ IH]; intros [key k].
  - cbn. f_equal. lia.
  - cbn [map fold_left length]. rewrite IH. cbn [fst snd] in *.
    unfold textMatch at 1 2. cbn [entryMatch Regex.group1 Regex.group2 fst snd].
    rewrite parseInt_numberToString. destruct (value_letter l) as (_ & -> & _).
    cbn [fst snd]. unfold addEntry at 2. cbn [fst snd]. f_equal. lia.
Qed.

(** X6. A key written in a PDF, each entry as the two text items "n."
    and the letter, is read back as written, for question numbers that
    are not negative and that a number holds exactly (below 2^53): the
    text the script builds from the pages is
    matched entry by entry, across item and page ends, the stored key is
    the one the entries spell (a later entry replacing an earlier one for
    the same number), the count shown is the number of entries, and the
    manual key field is emptied. *)
Theorem pdf_round_trip pages st :
  Forall (Forall (fun e => 0 <= fst e /\ safeInteger (fst e))) pages ->
  concat pages <> [] ->
  Regex.execAll (pdfText (map itemsOfEntries pages)) = map entryMatch (concat pages) /\
  parseAnswerKeyFromText (pdfText (map itemsOfEntries pages)) st
  = set_statusMessage (Some (AnswersLoaded (Z.of_nat (length (concat pages)))))
      (set_checkError None
        (set_manualKeyInput "" (set_answerKey (keyOfEntries (concat pages)) st))).
Proof.
  intros Hsafe Hne.
  assert (Hpos : Forall (Forall (fun e : Z * Choice => 0 <= fst e)) pages).
  { eapply Forall_impl; [exact Hsafe|]. intros es Hes.
    eapply Forall_impl; [exact Hes|]. by intros e [He _]. }
  assert (Htext : pdfText (map itemsOfEntries pages) = pagesText pages).
  { unfold pdfText. by rewrite fold_addPage. }
  rewrite Htext. pose proof (execAll_pages pages Hpos) as Hexec.
  split; [exact Hexec|].
  unfold parseAnswerKeyFromText. rewrite Hexec, fold_textMatch_entries.
  - apply storeParsedKey_some. destruct (concat pages); [contradiction | cbn; lia].
  - apply Forall_concat. exact Hpos.
Qed.

Lemma pdf_round_trip_witness :
  answerKey (parseAnswerKeyFromText
               (pdfText (map itemsOfEntries [[(1, OptB); (12, OptD)]; []; [(3, OptA)]]))
               initial)
  = <[1 := "B"]> (<[12 := "D"]> (<[3 := "A"]> ∅)).
Proof.
  assert (Hsafe : Forall (Forall (fun e : Z * Choice => 0 <= fst e /\ safeInteger (fst e)))
                         [[(1, OptB); (12, OptD)]; []; [(3, OptA)]]).
  { repeat (constructor;
            [repeat (constructor; [unfold safeInteger; cbn [fst]; lia|]); constructor|]).
    constructor. }
  rewrite (proj2 (pdf_round_trip [[(1, OptB); (12, OptD)]; []; [(3, OptA)]] initial
                    Hsafe ltac:(discriminate))).
  vm_compute. reflexivity.
Defined.

(** ** Uploaded files *)

Lemma split_nonempty sep s : split sep s <> [].
Proof.
  destruct s as [|c s]; cbn [split]; [discriminate|].
  destruct (Ascii.eqb c sep); [discriminate|]. by destruct (split sep s).
Qed.

(** Splitting a text that has a separator: the pieces before it, then the
    pieces after it. *)
Lemma split_app sep base rest :
  split sep (base ++ String sep rest) = (split sep base ++ split sep rest)%list.
Proof.
  induction base as [|c base IH].
  - change (EmptyString ++ String sep rest) with (String sep rest).
    cbn [split]. by rewrite Ascii.eqb_refl.
  - change (String c base ++ String sep rest) with (String c (base ++ String sep rest)).
    cbn [split]. rewrite IH. destruct (Ascii.eqb c sep); [reflexivity|].
    pose proof (split_nonempty sep base) as Hne.
    by destruct (split sep base).
Qed.

Lemma split_noDot s : noDot s = true -> split "." s = [s].
Proof.
  induction s as [|c s IH]; [reflexivity|].
  cbn [noDot split]. intros [Hc Hs]%andb_true_iff.
  apply negb_true_iff in Hc. rewrite Hc, IH by assumption. reflexivity.
Qed.

Lemma extension_after_dot base ext :
  noDot ext = true -> extension (base ++ "." ++ ext) = toLowerCase ext.
Proof.
  intros Hext. unfold extension.
  change (base ++ "." ++ ext) with (base ++ String "." ext).
  by rewrite split_app, (split_noDot ext Hext), last_snoc.
Qed.

Lemma extension_noDot name : noDot name = true -> extension name = toLowerCase name.
Proof. intros H. unfold extension. by rewrite split_noDot. Qed.

(** X7. [handleFileUpload] tells the type of a file by the text after
    the last period of its name, letter case apart: "xlsx" and "xls" go
    to the table parser, "pdf" to the text parser with the text of the
    pages, anything else is refused as unsupported; a decoder that fails
    gives the message of its type.  A name without a period counts whole
    as the extension.  The stored key changes only through a parser. *)
Theorem upload_by_extension base ext wb pdf st :
  noDot ext = true ->
  extension (base ++ "." ++ ext) = toLowerCase ext /\
  extension ext = toLowerCase ext /\
  handleFileUpload (Some (mkFile (base ++ "." ++ ext) wb pdf)) st
  = (if String.eqb (toLowerCase ext) "xlsx" || String.eqb (toLowerCase ext) "xls"
     then match wb with
          | Some data => Parsed (parseAnswerKeyFromExcel data st)
          | None => Refused FailedExcel
          end
     else if String.eqb (toLowerCase ext) "pdf"
     then match pdf with
          | Some pages => Parsed (parseAnswerKeyFromText (pdfText pages) st)
          | None => Refused FailedPdf
          end
     else Refused UnsupportedType).
Proof.
  intros Hext. split; [by apply extension_after_dot|].
  split; [by apply extension_noDot|].
  unfold handleFileUpload. cbn [fileName asWorkbook asPdf].
  by rewrite extension_after_dot.
Qed.

Lemma upload_by_extension_witness :
  handleFileUpload
    (Some (mkFile "answers.v2.XLSX" (Some [[CNumber 1; CString "b"]]) None)) initial
  = Parsed (parseAnswerKeyFromExcel [[CNumber 1; CString "b"]] initial) /\
  handleFileUpload (Some (mkFile "key.pdf.txt" None (Some [["1. A"]]))) initial
  = Refused UnsupportedType.
Proof.
  split.
  - exact (proj2 (proj2 (upload_by_extension "answers.v2" "XLSX"
                           (Some [[CNumber 1; CString "b"]]) None initial eq_refl))).
  - exact (proj2 (proj2 (upload_by_extension "key.pdf" "txt"
                           None (Some [["1. A"]]) initial eq_refl))).
Defined.

(** ** The report *)

Lemma value_inj c o : value c = value o -> c = o.
Proof. destruct c, o; intros H; try reflexivity; discriminate H. Qed.

Lemma gradeSheet_response now st st' :
  gradeSheet now st = Some st' ->
  forall i, response (omrSheet st') i = response (omrSheet st) i.
Proof.
  intros Hrun i. unfold response. rewrite (gradeSheet_rows now st st' Hrun).
  case_bool_decide; [|reflexivity]. by destruct (omrSheet st !! i).
Qed.

(** The bubble of a graded sheet, told by the verdict. *)
Lemma drawBubble_graded resp keyEntry o :
  drawBubble true (value <$> resp) keyEntry (value o)
  = mkBubble
      (if bool_decide (resp = Some o)
       then if bool_decide (verdictOf resp keyEntry = Correct) then Green else Red
       else Outline)
      (bool_decide (verdictOf resp keyEntry <> Correct /\ keyEntry = Some (value o))).
Proof.
  unfold drawBubble, verdictOf, sameAnswer. cbn [andb].
  destruct resp as [c|]; cbn [fmap option_fmap option_map].
  - pose proof (value_inj c o) as Hinj.
    destruct keyEntry as [k|];
      [destruct (String.eqb_spec (value c) k) as [Heq|Hne]|];
      cbn [negb andb]; f_equal;
      repeat (case_decide || case_bool_decide);
      try reflexivity; exfalso;
      repeat match goal with H : Some _ = Some _ |- _ => injection H as H end;
      intuition congruence.
  - cbn [negb andb]. f_equal;
      repeat (case_decide || case_bool_decide);
      try reflexivity; try (destruct keyEntry; reflexivity); exfalso;
      intuition congruence.
Qed.

(** X8. The report of a sheet that has just been graded shows the
    verdicts of the grading.  Its top carries the score line and the time
    taken; it has one row of four bubbles for each question; in every row
    only the answered bubble is filled, green when the question is
    Correct and red when it is Incorrect, and the green ring is drawn
    around the letter of the key exactly when the question is not
    Correct. *)
Theorem report_of_graded_sheet now st st' :
  gradeSheet now st = Some st' ->
  header (saveResultAsPDF st')
  = ScoreAndTime (results st')
                 (Some ("Time Taken: " ++ formatTime (now - startTime st))) /\
  map fst (rows (saveResultAsPDF st')) = seqZ 1 (totalQuestions st) /\
  forall i,
    reportRow st' i
    = map (fun o =>
             mkBubble
               (if bool_decide (response (omrSheet st) i = Some o)
                then if bool_decide (verdictAt (answerKey st) (omrSheet st) i = Correct)
                     then Green else Red
                else Outline)
               (bool_decide (verdictAt (answerKey st) (omrSheet st) i <> Correct /\
                             answerKey st !! i = Some (value o))))
          [OptA; OptB; OptC; OptD].
Proof.
  intros Hrun.
  pose proof (gradeSheet_response now st st' Hrun) as Hresp.
  pose proof (gradeSheet_fields now st st' Hrun)
    as (Htq & Hkey & _ & _ & _ & _ & Hg & _ & Htime & _).
  split; [|split].
  - unfold saveResultAsPDF, timeTakenText. cbn [header]. by rewrite Hg, Htime.
  - unfold saveResultAsPDF. cbn [rows]. rewrite Htq, map_map. cbn [fst]. apply map_id.
  - intros i. unfold reportRow, choiceLetters. rewrite Hg, Hkey, Hresp, map_map.
    apply map_ext. intros o. apply drawBubble_graded.
Qed.

Lemma report_of_graded_sheet_witness :
  exists st',
    gradeSheet 60000 gradingSample = Some st' /\
    map (map ink) (map snd (rows (saveResultAsPDF st')))
    = [[Green; Outline; Outline; Outline];
       [Outline; Outline; Red; Outline];
       [Outline; Outline; Outline; Outline]] /\
    map (map ringed) (map snd (rows (saveResultAsPDF st')))
    = [[false; false; false; false];
       [false; true; false; false];
       [false; false; true; false]].
Proof.
  destruct (gradeSheet 60000 gradingSample) as [st'|] eqn:Hrun; [|discriminate Hrun].
  exists st'. split; [reflexivity|].
  pose proof (report_of_graded_sheet 60000 gradingSample st' Hrun) as (_ & _ & Hrows).
  unfold saveResultAsPDF. cbn [rows]. rewrite !map_map. cbn [snd].
  replace (totalQuestions st') with 3
    by (apply gradeSheet_fields in Hrun as (-> & _); reflexivity).
  change (seqZ 1 3) with [1; 2; 3]. cbn [map]. rewrite !Hrows.
  split; vm_compute; reflexivity.
Defined.

(** ** Counting the verdicts *)

Lemma gradeSheet_counts_all_witness :
  exists st' r,
    gradeSheet 60000 gradingSample = Some st' /\ results st' = Some r /\
    correctCount r + incorrectCount r + unansweredCount r = 3.
Proof.
  assert (Hlaid : SheetLaidOut gradingSample) by (vm_compute; reflexivity).
  destruct (gradeSheet 60000 gradingSample) as [st'|] eqn:Hrun; [|discriminate Hrun].
  destruct (results st') as [r|] eqn:Hres;
    [|apply gradeSheet_results in Hrun as (r & Hr & _); rewrite Hr in Hres; discriminate Hres].
  exists st', r. split; [reflexivity|]. split; [exact Hres|].
  exact (gradeSheet_counts_all 60000 gradingSample st' r Hlaid Hrun Hres).
Defined.

Lemma countVerdict_all v f qs :
  (forall q, q ∈ qs -> f q = v) ->
  countVerdict v f qs = Z.of_nat (length qs) /\
  forall v', v' <> v -> countVerdict v' f qs = 0.
Proof.
  induction qs as [|q qs IH]; intros Hall; [split; [reflexivity | intros; reflexivity]|].
  destruct IH as [IH1 IH2]; [intros q' Hq'; apply Hall; by right|].
  assert (Hq : f q = v) by (apply Hall; by left).
  split.
  - cbn [countVerdict length]. rewrite IH1. case_decide; [lia | contradiction].
  - intros v' Hv'. cbn [countVerdict]. rewrite (IH2 v' Hv').
    case_decide; [congruence | reflexivity].
Qed.

(** X11. The two uniform sheets.  A sheet without a response has every
    question counted as unanswered, whatever the key.  A sheet on which
    every question carries the answer of the key has every question
    counted as correct. *)
Theorem blank_and_perfect_sheets now st st' r :
  SheetLaidOut st -> gradeSheet now st = Some st' -> results st' = Some r ->
  ((forall i, response (omrSheet st) i = None) ->
   correctCount r = 0 /\ incorrectCount r = 0 /\
   unansweredCount r = Z.max 0 (totalQuestions st)) /\
  ((forall i, 1 <= i <= totalQuestions st ->
              exists c, response (omrSheet st) i = Some c /\
                        answerKey st !! i = Some (value c)) ->
   correctCount r = Z.max 0 (totalQuestions st) /\ incorrectCount r = 0 /\
   unansweredCount r = 0).
Proof.
  intros Hlaid Hrun Hres.
  destruct (gradeSheet_spec now st Hlaid) as (st2 & r2 & Hrun2 & Hres2 & _ & Hc & Hi & Hu & _).
  rewrite Hrun in Hrun2. injection Hrun2 as <-.
  rewrite Hres in Hres2. injection Hres2 as <-.
  rewrite Hc, Hi, Hu.
  assert (Hlen : Z.of_nat (length (seqZ 1 (totalQuestions st))) = Z.max 0 (totalQuestions st))
    by (rewrite length_seqZ; lia).
  split.
  - intros Hblank.
    destruct (countVerdict_all Unanswered (verdictAt (answerKey st) (omrSheet st))
                (seqZ 1 (totalQuestions st))) as [H1 H2].
    { intros q _. unfold verdictAt. by rewrite Hblank. }
    rewrite H1, Hlen, !H2 by discriminate. done.
  - intros Hperfect.
    destruct (countVerdict_all Correct (verdictAt (answerKey st) (omrSheet st))
                (seqZ 1 (totalQuestions st))) as [H1 H2].
    { intros q Hq. apply elem_of_seqZ in Hq.
      destruct (Hperfect q) as (c & Hresp & Hkey); [lia|].
      unfold verdictAt, verdictOf. rewrite Hresp, Hkey. by case_decide. }
    rewrite H1, Hlen, !H2 by discriminate. done.
Qed.

Lemma blank_and_perfect_sheets_witness :
  exists st' r,
    gradeSheet 5 (set_answerKey (<[1 := "A"]> ∅) (sheetOf "1" None None 0)) = Some st' /\
    results st' = Some r /\
    correctCount r = 0 /\ incorrectCount r = 0 /\ unansweredCount r = 1.
Proof.
  set (st := set_answerKey (<[1 := "A"]> ∅) (sheetOf "1" None None 0)).
  assert (Hlaid : SheetLaidOut st) by (vm_compute; reflexivity).
  destruct (gradeSheet 5 st) as [st'|] eqn:Hrun; [|discriminate Hrun].
  destruct (results st') as [r|] eqn:Hres;
    [|apply gradeSheet_results in Hrun as (r & Hr & _); rewrite Hr in Hres; discriminate Hres].
  exists st', r. split; [reflexivity|]. split; [exact Hres|].
  apply (proj1 (blank_and_perfect_sheets 5 st st' r Hlaid Hrun Hres)).
  intros i. unfold response.
  destruct (decide (i = 1)) as [->|Hne]; [reflexivity|].
  change (omrSheet st) with (<[1 := createQuestionRow]> (∅ : gmap Z Row)).
  rewrite lookup_insert_ne by done. reflexivity.
Defined.

(** ** A check with an uploaded key *)

Lemma fold_storeRow_nonempty rows :
  forall key,
    (forall row, In row rows -> rowAccepted row = true) ->
    key <> ∅ \/ rows <> [] ->
    fold_left storeRow rows key <> ∅.
Proof.
  induction rows as [|row rows IH]; intros key Hall Hne.
  - destruct Hne as [Hne|Hne]; [exact Hne | contradiction].
  - cbn [fold_left]. apply IH; [intros row' Hin; apply Hall; by right|].
    left. unfold storeRow.
    assert (Hacc : rowAccepted row = true) by (apply Hall; by left).
    unfold rowAccepted in Hacc.
    destruct (rowNumber row) as [q|]; [|discriminate Hacc].
    apply insert_non_empty.
Qed.

Lemma acceptedRows_nonempty data :
  acceptedRows data <> [] -> fold_left storeRow (acceptedRows data) ∅ <> ∅.
Proof.
  intros Hne. apply fold_storeRow_nonempty; [|by right].
  intros row Hin. unfold acceptedRows in Hin. by apply filter_In in Hin as [_ Hacc].
Qed.

(** With the manual key field empty and a key stored, the check compares
    the number of stored entries with the number of questions. *)
Lemma handleCheckAnswers_stored now st :
  manualKeyInput st = "" -> answerKey st <> ∅ ->
  handleCheckAnswers now st =
  if bool_decide (keyCount st = totalQuestions st)
  then gradeSheet now st
  else Some (showCheckError (UploadedKeyHas (keyCount st) (totalQuestions st)) st).
Proof.
  intros Hmk Hkey. unfold handleCheckAnswers, manualKey. rewrite Hmk.
  change (JS.toUpperCase (JS.trim "")) with "". cbn [String.eqb negb orb].
  assert (Hpos : (keyCount st >? 0) = true).
  { unfold keyCount. apply Z.gtb_lt.
    assert (size (answerKey st) <> 0%nat) by (by rewrite map_size_empty_iff). lia. }
  rewrite Hpos.
  case_bool_decide as Hcount.
  - by rewrite (proj2 (Z.eqb_eq _ _) Hcount).
  - by rewrite (proj2 (Z.eqb_neq _ _) Hcount).
Qed.

(** X12. A check after a table is loaded.  Whatever was typed as the
    manual key before, once a table with an accepted row is loaded the
    check goes by the stored key: it grades the sheet with that key when
    the key has as many entries as the sheet has questions, and refuses
    with both counts otherwise. *)
Theorem check_with_uploaded_table now data st :
  acceptedRows data <> [] -> SheetLaidOut st ->
  let key := fold_left storeRow (acceptedRows data) ∅ in
  let st1 := parseAnswerKeyFromExcel data st in
  (Z.of_nat (size key) = totalQuestions st ->
   exists st2,
     handleCheckAnswers now st1 = Some st2 /\ gradeSheet now st1 = Some st2 /\
     answerKey st2 = key /\ isGraded st2 = true) /\
  (Z.of_nat (size key) <> totalQuestions st ->
   handleCheckAnswers now st1
   = Some (showCheckError (UploadedKeyHas (Z.of_nat (size key)) (totalQuestions st)) st1)).
Proof.
  intros Hacc Hlaid key st1.
  assert (Hst1 : manualKeyInput st1 = "" /\ answerKey st1 = key /\
                 totalQuestions st1 = totalQuestions st /\ omrSheet st1 = omrSheet st).
  { subst st1. rewrite (parseAnswerKeyFromExcel_stores data st Hacc). by destruct st. }
  destruct Hst1 as (Hmk & Hkey & Htot & Hsheet).
  assert (Hne : answerKey st1 <> ∅) by (rewrite Hkey; by apply acceptedRows_nonempty).
  rewrite (handleCheckAnswers_stored now st1 Hmk Hne).
  unfold keyCount. rewrite Hkey, Htot.
  split; intros Hcount.
  - rewrite bool_decide_eq_true_2 by exact Hcount.
    assert (Hlaid1 : SheetLaidOut st1) by (by apply (SheetLaidOut_same st)).
    destruct (gradeSheet_spec now st1 Hlaid1) as (st2 & r & Hrun & _).
    exists st2. split; [exact Hrun|]. split; [exact Hrun|].
    apply gradeSheet_fields in Hrun as (_ & Hk & _ & _ & _ & _ & Hg & _).
    by rewrite Hk.
  - by rewrite bool_decide_eq_false_2 by exact Hcount.
Qed.

Lemma check_with_uploaded_table_witness :
  exists st2,
    handleCheckAnswers 5
      (parseAnswerKeyFromExcel [[CNumber 1; CString "a"]]
         (set_manualKeyInput "AB" (sheetOf "1" None None 0))) = Some st2 /\
    answerKey st2 = <[1 := "A"]> ∅ /\ isGraded st2 = true.
Proof.
  set (st := set_manualKeyInput "AB" (sheetOf "1" None None 0)).
  assert (Hacc : acceptedRows [[CNumber 1; CString "a"]] <> []) by discriminate.
  assert (Hlaid : SheetLaidOut st) by (vm_compute; reflexivity).
  destruct (proj1 (check_with_uploaded_table 5 [[CNumber 1; CString "a"]] st Hacc Hlaid))
    as (st2 & Hcheck & _ & Hkey & Hgraded); [vm_compute; reflexivity|].
  exists st2. split; [exact Hcheck|]. split; [|exact Hgraded].
  rewrite Hkey. reflexivity.
Defined.

(** ** A new sheet *)

(** Without a typed key and without a stored key the check only asks
    whether to proceed. *)
Lemma handleCheckAnswers_no_key now st :
  manualKey st = "" -> answerKey st = ∅ ->
  handleCheckAnswers now st = Some (set_confirmModal true st).
Proof.
  intros Hmk Hkey. unfold handleCheckAnswers, keyCount.
  rewrite Hmk, Hkey, map_size_empty. reflexivity.
Qed.

(** X13. A new sheet starts from nothing.  After a sheet is generated
    from an accepted count, and after every reset, no key is stored and
    none is typed, no result is shown, no question has a response, and a
    check only asks whether to proceed without a key: a key that was
    loaded before the sheet was generated is lost. *)
Theorem new_sheet_forgets_key now t st st1 :
  (st1 = generateOMRSheet now st /\
   exists count, JS.parseInt (questionCountInput st) = Some count /\ 1 <= count <= 200) \/
  st1 = resetEverything st ->
  answerKey st1 = ∅ /\ manualKeyInput st1 = "" /\ results st1 = None /\
  isGraded st1 = false /\
  (forall i, response (omrSheet st1) i = None) /\
  handleCheckAnswers t st1 = Some (set_confirmModal true st1).
Proof.
  intros Hst1.
  assert (H : answerKey st1 = ∅ /\ manualKeyInput st1 = "" /\ results st1 = None /\
              isGraded st1 = false /\ forall i, response (omrSheet st1) i = None).
  { destruct Hst1 as [(-> & count & Hparse & Hrange) | ->].
    - destruct (generateOMRSheet_accepts now st count Hparse Hrange)
        as (_ & _ & _ & Hkey & Hmk & Hg & _ & _ & Hrows & _).
      split; [exact Hkey|]. split; [exact Hmk|]. split; [|split; [exact Hg|]].
      + unfold generateOMRSheet. rewrite Hparse.
        rewrite (proj2 (range_test count) Hrange). by destruct st.
      + intros i. unfold response. rewrite Hrows. by case_bool_decide.
    - split; [by destruct st|]. split; [by destruct st|]. split; [by destruct st|].
      split; [by destruct st|].
      intros i. unfold response.
      replace (omrSheet (resetEverything st)) with (resetRow <$> (∅ : gmap Z Row))
        by (by destruct st).
      by rewrite fmap_empty, lookup_empty. }
  destruct H as (Hkey & Hmk & Hres & Hg & Hrows).
  repeat (split; [assumption|]).
  apply handleCheckAnswers_no_key; [|exact Hkey].
  unfold manualKey. by rewrite Hmk.
Qed.

Lemma new_sheet_forgets_key_witness :
  handleCheckAnswers 9
    (generateOMRSheet 5
       (set_questionCountInput "3"
          (parseAnswerKeyFromExcel [[CNumber 1; CString "a"]] initial)))
  = Some (set_confirmModal true
            (generateOMRSheet 5
               (set_questionCountInput "3"
                  (parseAnswerKeyFromExcel [[CNumber 1; CString "a"]] initial)))) /\
  handleCheckAnswers 9
    (resetEverything (parseAnswerKeyFromExcel [[CNumber 1; CString "a"]] initial))
  = Some (set_confirmModal true
            (resetEverything (parseAnswerKeyFromExcel [[CNumber 1; CString "a"]] initial))).
Proof.
  split.
  - apply (new_sheet_forgets_key 5 9
             (set_questionCountInput "3"
                (parseAnswerKeyFromExcel [[CNumber 1; CString "a"]] initial))).
    left. split; [reflexivity|]. exists 3. split; [reflexivity | lia].
  - apply (new_sheet_forgets_key 5 9
             (parseAnswerKeyFromExcel [[CNumber 1; CString "a"]] initial)).
    by right.
Defined.

(** ** The time of a sheet *)

(** X14. The time of a sheet runs from its generation.  After a sheet is
    generated from an accepted count at clock reading [t0], and through
    any events that generate no further sheet, a tick of the running timer
    shows the time since [t0], going on without a key prints the time
    since [t0] as the time taken, and a check either leaves the time
    taken as it was or grades and prints the time since [t0]. *)
Theorem time_taken_since_generation t0 t1 st count es st2 :
  JS.parseInt (questionCountInput st) = Some count -> 1 <= count <= 200 ->
  forallb (fun e => negb (isGenerate e)) es = true ->
  run es (generateOMRSheet t0 st) = Some st2 ->
  timerDisplayText (tick t1 st2)
  = (if timerInterval st2 then formatTime (t1 - t0) else timerDisplayText st2) /\
  timeTakenText (handleConfirmProceed t1 st2)
  = Some ("Time Taken: " ++ formatTime (t1 - t0)) /\
  forall st3,
    handleCheckAnswers t1 st2 = Some st3 ->
    timeTakenInfo st3 = timeTakenInfo st2 \/
    (isGraded st3 = true /\
     timeTakenText st3 = Some ("Time Taken: " ++ formatTime (t1 - t0))).
Proof.
  intros Hparse Hrange Hes Hrun.
  assert (Hstart : startTime st2 = t0).
  { rewrite (run_startTime es _ st2 Hes Hrun).
    by destruct (generateOMRSheet_accepts t0 st count Hparse Hrange)
      as (_ & _ & _ & _ & _ & _ & -> & _). }
  split; [|split].
  - unfold timerDisplayText, tick, elapsedTime. rewrite Hstart.
    destruct (timerInterval st2); [by destruct st2 | reflexivity].
  - unfold timeTakenText.
    replace (timeTakenInfo (handleConfirmProceed t1 st2)) with (Some (t1 - startTime st2))
      by (by destruct st2).
    by rewrite Hstart.
  - intros st3 Hcheck.
    destruct (handleCheckAnswers_cases t1 st2 st3 Hcheck)
      as [(key & Hgrade & _) | [(m & ->) | ->]];
      [right | left; by destruct st2 | left; by destruct st2].
    apply gradeSheet_fields in Hgrade as (_ & _ & _ & _ & _ & _ & Hg & _ & Htime & _).
    split; [exact Hg|]. unfold timeTakenText. rewrite Htime.
    replace (startTime (set_answerKey key st2)) with (startTime st2) by (by destruct st2).
    by rewrite Hstart.
Qed.

Lemma time_taken_since_generation_witness :
  exists st2,
    run [ClickRadio 1 OptA; Tick 61000; ExcelDecoded [[CNumber 1; CString "a"]]]
        (generateOMRSheet 1000 (set_questionCountInput "1" initial)) = Some st2 /\
    timeTakenText (handleConfirmProceed 126000 st2) = Some "Time Taken: 02:05".
Proof.
  eexists. split; [reflexivity|].
  apply (time_taken_since_generation 1000 126000 (set_questionCountInput "1" initial) 1
           [ClickRadio 1 OptA; Tick 61000; ExcelDecoded [[CNumber 1; CString "a"]]]);
    [reflexivity | lia | reflexivity | reflexivity].
Defined.

(** ** The responses *)

Lemma response_same_sheet st st' i :
  omrSheet st' = omrSheet st -> response (omrSheet st') i = response (omrSheet st) i.
Proof. by intros ->. Qed.

(** X15. Only clicks change the responses.  Through an event other than
    a reset or a new sheet the response to a question stays as it was,
    unless the event is a click on a radio of the question, which makes
    that radio the response, or a click on its Clear button, which leaves
    no response: keys, uploads, checks, grading and the timer never touch
    the answers. *)
Theorem responses_change_only_by_clicks e st st' i :
  isReset e = false -> step e st = Some st' ->
  response (omrSheet st') i = response (omrSheet st) i \/
  (exists c, e = ClickRadio i c /\ response (omrSheet st') i = Some c) \/
  (e = ClickClear i /\ response (omrSheet st') i = None).
Proof.
  intros He H. destruct e; try discriminate He; unfold step in H;
    try (injection H as <-).
  - left. apply response_same_sheet. by destruct st.
  - left. apply response_same_sheet. by destruct st.
  - left. apply response_same_sheet. by destruct st.
  - left. apply response_same_sheet. by destruct st.
  - unfold clickRadio.
    destruct (omrSheet st !! i0) as [r|] eqn:Hr; [|by left].
    destruct (disabled r); [by left|].
    destruct (decide (i0 = i)) as [->|Hne].
    + right. left. exists c. split; [reflexivity|].
      unfold response. replace (omrSheet _) with
        (<[i := mkRow (Some c) false (clearHidden r) (rowClass r)]> (omrSheet st))
        by (by destruct st).
      by rewrite lookup_insert_eq.
    + left. unfold response. replace (omrSheet _) with
        (<[i0 := mkRow (Some c) false (clearHidden r) (rowClass r)]> (omrSheet st))
        by (by destruct st).
      by rewrite lookup_insert_ne.
  - unfold clickClear.
    destruct (omrSheet st !! i0) as [r|] eqn:Hr; [|by left].
    destruct (clearHidden r); [by left|].
    unfold clearSelection. rewrite Hr.
    destruct (decide (i0 = i)) as [->|Hne].
    + right. right. split; [reflexivity|].
      unfold response. replace (omrSheet _) with
        (<[i := mkRow None false (clearHidden r) (rowClass r)]> (omrSheet st))
        by (by destruct st).
      by rewrite lookup_insert_eq.
    + left. unfold response. replace (omrSheet _) with
        (<[i0 := mkRow None false (clearHidden r) (rowClass r)]> (omrSheet st))
        by (by destruct st).
      by rewrite lookup_insert_ne.
  - left.
    destruct (handleCheckAnswers_cases now st st' H)
      as [(key & Hgrade & _) | [(m & ->) | ->]];
      [|apply response_same_sheet; by destruct st
       |apply response_same_sheet; by destruct st].
    rewrite (gradeSheet_response now _ st' Hgrade).
    apply response_same_sheet. by destruct st.
  - left. apply handleConfirmProceed_keeps_frozen.
  - left. apply response_same_sheet. by destruct st.
  - left. apply response_same_sheet, storeParsedKey_omrSheet.
  - left. apply response_same_sheet, storeParsedKey_omrSheet.
  - left. apply response_same_sheet.
    unfold tick. destruct (timerInterval st); by destruct st.
Qed.

Lemma responses_change_only_by_clicks_witness :
  response (omrSheet (clickRadio 1 OptB (sheetOf "2" None None 0))) 2
  = response (omrSheet (sheetOf "2" None None 0)) 2 \/
  (exists c, ClickRadio 1 OptB = ClickRadio 2 c /\
             response (omrSheet (clickRadio 1 OptB (sheetOf "2" None None 0))) 2 = Some c) \/
  (ClickRadio 1 OptB = ClickClear 2 /\
   response (omrSheet (clickRadio 1 OptB (sheetOf "2" None None 0))) 2 = None).
Proof.
  apply (responses_change_only_by_clicks (ClickRadio 1 OptB)); reflexivity.
Defined.

(** ** The report of a sheet that is not graded *)





